(** * OnePath service dispatch: the orchestrator core, embedded and verified

    A shallow embedding of the dispatch core of the repository:
    - the keyword extractors ([SimpleAgentDemo.analyze_customer_request],
      [AgentOrchestrator._extract_entities_from_message]),
    - the two pricing engines ([SimpleAgentDemo.calculate_pricing],
      [PricingService.calculate_pricing]),
    - the planner ([AgentOrchestrator._determine_agent_chain]),
    - chain execution and response synthesis,
    - the session stores, the conversation state of [prompt.py]
      ([ConversationState.add_message]) and the follow-up handlers.

    Conventions.
    - Python [str] is [string]; the messages handled here are ASCII, and
      [str.lower] is modelled on the ASCII letters.
    - Python numbers that take part in prices and confidences are exact
      rationals ([Q], compared with [==]): [0.15] is [15/100], [0.08] is
      [8/100].  Rounding of binary floating point is not modelled.
    - A literal [dict] whose iteration order the code relies on is an
      association list in declaration order; the stores keyed by request id
      are [gmap string _].
    - Code that may raise returns [Outcome]: [Returned v] or [Raised e]. *)

From Stdlib Require Import QArith ZArith String Ascii List Bool Lqa.
From stdpp Require Import gmap strings list.
Import ListNotations.

Local Open Scope string_scope.
Local Open Scope list_scope.

(** ** Python's string primitives *)

Module Text.

(** [c.lower()] on one ASCII character: [A]..[Z] (65..90) move by 32. *)
Definition lower_ascii (c : ascii) : ascii :=
  let n := nat_of_ascii c in
  if (Nat.leb 65 n && Nat.leb n 90)%bool then ascii_of_nat (n + 32) else c.

(** [s.lower()]. *)
Fixpoint lower (s : string) : string :=
  match s with
  | EmptyString => EmptyString
  | String c rest => String (lower_ascii c) (lower rest)
  end.

(** [s.startswith(p)]. *)
Fixpoint starts_with (p s : string) : bool :=
  match p, s with
  | EmptyString, _ => true
  | String _ _, EmptyString => false
  | String a p', String b s' => (Ascii.eqb a b && starts_with p' s')%bool
  end.

(** [p in s]: [p] occurs in [s] as a contiguous substring. *)
Fixpoint contains (p s : string) : bool :=
  (starts_with p s
   || match s with
      | EmptyString => false
      | String _ s' => contains p s'
      end)%bool.

(** [any(p in s for p in patterns)]. *)
Definition any_in (patterns : list string) (s : string) : bool :=
  existsb (fun p => contains p s) patterns.

(** [sep.join(parts)]. *)
Fixpoint join (sep : string) (parts : list string) : string :=
  match parts with
  | [] => EmptyString
  | [p] => p
  | p :: rest => p ++ sep ++ join sep rest
  end.

End Text.

(** ** Literal dictionaries, in declaration order *)

Module Dict.

Section Ordered.
Context {V : Type}.

(** [d.get(k)]: an association list read front to back. *)
Fixpoint get (k : string) (d : list (string * V)) : option V :=
  match d with
  | [] => None
  | (k', v) :: rest => if String.eqb k k' then Some v else get k rest
  end.

(** [d.get(k, dflt)]. *)
Definition get_or (k : string) (dflt : V) (d : list (string * V)) : V :=
  match get k d with
  | Some v => v
  | None => dflt
  end.

(** [d[k] = v]: an existing key keeps its position, a new key goes last
    (the insertion order Python's [dict] preserves). *)
Fixpoint set (k : string) (v : V) (d : list (string * V)) : list (string * V) :=
  match d with
  | [] => [(k, v)]
  | (k', v') :: rest =>
      if String.eqb k k' then (k, v) :: rest else (k', v') :: set k v rest
  end.

Definition keys (d : list (string * V)) : list string := map fst d.
Definition values (d : list (string * V)) : list V := map snd d.

(** The first key, in declaration order, whose value satisfies [p]:
    [for k, v in d.items(): if p(v): ...; break]. *)
Fixpoint first_match (p : V -> bool) (d : list (string * V)) : option string :=
  match d with
  | [] => None
  | (k, v) :: rest => if p v then Some k else first_match p rest
  end.
End Ordered.

End Dict.

(** ** Python's numeric builtins *)

Module Builtins.

(** [sum(xs)]: from [0], left to right. *)
Definition sum (xs : list Q) : Q := fold_left Qplus xs 0%Q.

End Builtins.

(** ** The pricing breakdown

    The dictionary both engines return, key by key.  Neither engine has a
    same-visit term: [same_visit_savings] records that its share of every
    breakdown is zero. *)

Record Pricing := mkPricing {
  base_cost : Q;
  addon_cost : Q;
  subtotal : Q;
  bundle_discount : Q;
  urgency_surcharge : Q;
  tax : Q;
  total : Q;
  savings : Q
}.

Definition same_visit_savings (p : Pricing) : Q := 0%Q.

(** The pricing identity of a breakdown, with the subtotal it is built on. *)
Definition pricing_identity (p : Pricing) : Prop :=
  (total p == subtotal p - bundle_discount p - same_visit_savings p
                + urgency_surcharge p + tax p
   /\ subtotal p == base_cost p + addon_cost p)%Q.

(** The amount before tax. *)
Definition pre_tax (p : Pricing) : Q :=
  (subtotal p - bundle_discount p + urgency_surcharge p)%Q.

(** The services a call of [PricingService.calculate_pricing] prices:
    [additional_services or []]. *)
Definition priced_services (additional_services : option (list string))
    : list string :=
  match additional_services with
  | Some l => l
  | None => []
  end.

(** [{"emergency": 75, "high": 25}.get(urgency, 0)], shared by both engines. *)
Definition urgency_table : list (string * Q) :=
  [("emergency", 75%Q); ("high", 25%Q)].

(** ** [simple_demo.py]: [SimpleAgentDemo.calculate_pricing] *)

Module SimpleDemoPricing.

Definition base_prices : list (string * Q) :=
  [("ac_repair", 150%Q); ("heating", 175%Q); ("plumbing", 125%Q);
   ("electrical", 200%Q)].

Definition addon_prices : list (string * Q) :=
  [("thermostat_install", 200%Q); ("filter_replacement", 25%Q);
   ("duct_cleaning", 300%Q)].

Definition calculate_pricing (service_type : string)
    (additional_services : list string) (urgency : string) : Pricing :=
  let base_cost := Dict.get_or service_type 150%Q base_prices in
  let addon_cost :=
    Builtins.sum (map (fun service => Dict.get_or service 0%Q addon_prices)
              additional_services) in
  let subtotal := (base_cost + addon_cost)%Q in
  let bundle_discount :=
    match additional_services with [] => 0%Q | _ :: _ => (15 # 100)%Q end in
  let discount_amount := (subtotal * bundle_discount)%Q in
  let urgency_surcharge := Dict.get_or urgency 0%Q urgency_table in
  let total := (subtotal - discount_amount + urgency_surcharge)%Q in
  let tax := (total * (8 # 100))%Q in
  let final_total := (total + tax)%Q in
  {| base_cost := base_cost;
     addon_cost := addon_cost;
     subtotal := subtotal;
     bundle_discount := discount_amount;
     urgency_surcharge := urgency_surcharge;
     tax := tax;
     total := final_total;
     savings := discount_amount |}.

End SimpleDemoPricing.

(** ** [langchain_agent_system.py]: [PricingService.calculate_pricing] *)

Module PricingService.

Definition base_prices : list (string * list (string * Q)) :=
  [("ac_repair", [("diagnostic", 75%Q); ("repair", 150%Q)]);
   ("heating", [("diagnostic", 75%Q); ("repair", 175%Q)]);
   ("plumbing", [("diagnostic", 50%Q); ("repair", 125%Q)]);
   ("electrical", [("diagnostic", 100%Q); ("repair", 200%Q)])].

Definition addon_prices : list (string * Q) :=
  [("thermostat_install", 200%Q); ("filter_replacement", 25%Q);
   ("duct_cleaning", 300%Q); ("maintenance_plan", 150%Q)].

(** [base_prices["ac_repair"]], the default row. *)
Definition ac_repair_row : list (string * Q) :=
  Dict.get_or "ac_repair" [] base_prices.

(** [additional_services] defaults to [None]; [location] is not read. *)
Definition calculate_pricing (service_type : string)
    (additional_services : option (list string)) (urgency : string) : Pricing :=
  let base_cost :=
    Builtins.sum (Dict.values (Dict.get_or service_type ac_repair_row base_prices)) in
  let addon_cost :=
    Builtins.sum (map (fun service => Dict.get_or service 0%Q addon_prices)
              (priced_services additional_services)) in
  let subtotal := (base_cost + addon_cost)%Q in
  let bundle_discount :=
    match additional_services with
    | Some (_ :: _) => (15 # 100)%Q
    | _ => 0%Q
    end in
  let discount_amount := (subtotal * bundle_discount)%Q in
  let urgency_surcharge := Dict.get_or urgency 0%Q urgency_table in
  let total := (subtotal - discount_amount + urgency_surcharge)%Q in
  let tax := (total * (8 # 100))%Q in
  let final_total := (total + tax)%Q in
  {| base_cost := base_cost;
     addon_cost := addon_cost;
     subtotal := subtotal;
     bundle_discount := discount_amount;
     urgency_surcharge := urgency_surcharge;
     tax := tax;
     total := final_total;
     savings := discount_amount |}.

End PricingService.

(** ** [simple_demo.py]: the keyword analysis and the session store *)

Module SimpleDemo.

(** The dictionary [analyze_customer_request] returns. *)
Record Analysis := mkAnalysis {
  service_type : string;
  urgency : string;
  additional_services : list string;
  requires_scheduling : bool;
  requires_pricing : bool;
  bundle_request : bool
}.

Definition analyze_customer_request (message : string) : Analysis :=
  let message_lower := Text.lower message in
  let service_type :=
    if Text.any_in ["ac"; "air conditioning"; "cooling"] message_lower
    then "ac_repair"
    else if Text.any_in ["heat"; "heating"; "furnace"] message_lower
    then "heating"
    else if Text.any_in ["plumb"; "water"; "leak"] message_lower
    then "plumbing"
    else if Text.any_in ["electric"; "power"; "outlet"] message_lower
    then "electrical"
    else "ac_repair" in
  let urgency :=
    if Text.any_in ["emergency"; "urgent"; "asap"; "broken"] message_lower
    then "emergency"
    else if Text.any_in ["this week"; "soon"; "today"] message_lower
    then "high"
    else if Text.any_in ["whenever"; "flexible"] message_lower
    then "low"
    else "normal" in
  let additional_services := [] in
  let additional_services :=
    if Text.contains "thermostat" message_lower
    then additional_services ++ ["thermostat_install"]
    else additional_services in
  let additional_services :=
    if Text.contains "filter" message_lower
    then additional_services ++ ["filter_replacement"]
    else additional_services in
  {| service_type := service_type;
     urgency := urgency;
     additional_services := additional_services;
     requires_scheduling := Text.any_in ["week"; "today"; "tomorrow"] message_lower;
     requires_pricing := Text.any_in ["cost"; "price"; "how much"] message_lower;
     bundle_request := Text.any_in ["add"; "bundle"; "also"; "too"] message_lower |}.

Definition calculate_pricing := SimpleDemoPricing.calculate_pricing.

(** One entry of [active_sessions].  The ["availability"] entry (mock
    calendar slots stamped with the wall clock) is never read by the
    follow-up handler and is left out. *)
Record Session := mkSession {
  analysis : Analysis;
  pricing : option Pricing;
  conversation : list string
}.

(** [list(set(xs))]: the distinct elements of [xs]; Python fixes no order
    for them, the model takes the order of [elements]. *)
Definition list_set (xs : list string) : list string :=
  elements (list_to_set xs : gset string).

(** What [handle_followup] returns: [{"error": "Session not found"}], the
    bundle update (services and pricing; the text of the reply is not
    modelled), or the generic acknowledgement. *)
Inductive FollowupReply :=
| SessionNotFound
| BundleUpdated (updated_services : list string) (updated_pricing : Pricing)
| Acknowledged.

Definition set_additional_services (a : Analysis) (l : list string) : Analysis :=
  {| service_type := service_type a;
     urgency := urgency a;
     additional_services := l;
     requires_scheduling := requires_scheduling a;
     requires_pricing := requires_pricing a;
     bundle_request := bundle_request a |}.

(** [handle_followup]: the sessions are mutated in place, so the updated
    store is returned with the reply. *)
Definition handle_followup (active_sessions : gmap string Session)
    (request_id followup_message : string)
    : gmap string Session * FollowupReply :=
  match active_sessions !! request_id with
  | None => (active_sessions, SessionNotFound)
  | Some session =>
      let conversation := conversation session ++ [followup_message] in
      let followup_analysis := analyze_customer_request followup_message in
      if bundle_request followup_analysis then
        let original_services := additional_services (analysis session) in
        let new_services := additional_services followup_analysis in
        let all_services := list_set (original_services ++ new_services) in
        let updated_pricing :=
          calculate_pricing (service_type (analysis session)) all_services
                            (urgency (analysis session)) in
        let session' :=
          {| analysis := set_additional_services (analysis session) all_services;
             pricing := Some updated_pricing;
             conversation := conversation |} in
        (<[request_id := session']> active_sessions,
         BundleUpdated all_services updated_pricing)
      else
        let session' :=
          {| analysis := analysis session;
             pricing := pricing session;
             conversation := conversation |} in
        (<[request_id := session']> active_sessions, Acknowledged)
  end.

(** The services stored for a request, if the request is known. *)
Definition stored_services (active_sessions : gmap string Session)
    (request_id : string) : option (list string) :=
  (fun s => additional_services (analysis s)) <$> active_sessions !! request_id.

End SimpleDemo.

(** ** Exceptions *)

Inductive Exn :=
| ValueError (msg : string)
| KeyError (key : string)
| AgentFailure (msg : string).

(** [str(e)]. *)
Definition exn_str (e : Exn) : string :=
  match e with
  | ValueError msg => msg
  | KeyError key => ("'" ++ key ++ "'")%string
  | AgentFailure msg => msg
  end.

Inductive Outcome (A : Type) :=
| Returned (a : A)
| Raised (e : Exn).
Arguments Returned {A} a.
Arguments Raised {A} e.

(** ** [agent_orchestrator.py]: [AgentOrchestrator] *)

Module Orchestrator.

(** Values stored in the entity dictionary: strings and booleans. *)
Inductive Value :=
| VStr (s : string)
| VBool (b : bool).

(** Truthiness of [d.get(k)]. *)
Definition truthy (v : option Value) : bool :=
  match v with
  | Some (VBool b) => b
  | Some (VStr s) => negb (String.eqb s "")
  | None => false
  end.

(** [d.get(k) in names] for a list of string literals. *)
Definition among (v : option Value) (names : list string) : bool :=
  match v with
  | Some (VStr s) => existsb (String.eqb s) names
  | _ => false
  end.

(** [f"{d.get(k, dflt)}"]. *)
Definition shown (v : option Value) (dflt : string) : string :=
  match v with
  | Some (VStr s) => s
  | Some (VBool true) => "True"
  | Some (VBool false) => "False"
  | None => dflt
  end.

Definition service_patterns : list (string * list string) :=
  [("ac_repair", ["ac"; "air conditioning"; "cooling"; "hvac"; "conditioner"]);
   ("heating", ["heat"; "heating"; "furnace"; "boiler"; "warm"]);
   ("plumbing", ["plumb"; "water"; "leak"; "pipe"; "drain"; "toilet"]);
   ("electrical", ["electric"; "power"; "outlet"; "wiring"; "lights"])].

Definition urgency_patterns : list (string * list string) :=
  [("emergency", ["emergency"; "urgent"; "asap"; "immediately"; "broken";
                  "not working"; "dead"]);
   ("high", ["this week"; "soon"; "quickly"; "today"; "tomorrow"]);
   ("normal", ["convenient"; "schedule"; "when possible"]);
   ("low", ["whenever"; "no rush"; "flexible"])].

Definition bundle_indicators : list string :=
  ["add"; "also"; "too"; "bundle"; "package"; "plus"; "include"].
Definition pricing_indicators : list string :=
  ["cost"; "price"; "how much"; "quote"; "estimate"; "expensive"].
Definition schedule_indicators : list string :=
  ["when"; "schedule"; "appointment"; "time"; "available"].

(** [entities[k] = v] when [found] names a value, else no change. *)
Definition set_found (k : string) (found : option string)
    (entities : gmap string Value) : gmap string Value :=
  match found with
  | Some name => <[k := VStr name]> entities
  | None => entities
  end.

(** [if flag: entities[k] = True]. *)
Definition set_flag (k : string) (flag : bool)
    (entities : gmap string Value) : gmap string Value :=
  if flag then <[k := VBool true]> entities else entities.

(** ** [prompt.py]: [ConversationState]

    The orchestrator keeps one [ConversationState] per request.  A message
    is its role and content (its timestamp is not modelled, and its
    metadata is always empty here). *)

Module Prompt.

Record ConversationState := mkConversationState {
  messages : list (string * string);
  extracted_entities : gmap string Value;
  customer_preferences : gmap string Value;
  confidence_history : list Q;
  error_count : nat;
  last_successful_action : option string
}.

(** [ConversationState()]. *)
Definition new_state : ConversationState :=
  {| messages := [];
     extracted_entities := ∅;
     customer_preferences := ∅;
     confidence_history := [];
     error_count := 0;
     last_successful_action := None |}.

Definition service_patterns : list (string * list string) :=
  [("ac_repair", ["ac"; "air conditioning"; "cooling"; "hvac"; "conditioner"]);
   ("heating", ["heat"; "heating"; "furnace"; "boiler"; "warm"]);
   ("plumbing", ["plumb"; "water"; "leak"; "pipe"; "drain"; "toilet"]);
   ("electrical", ["electric"; "power"; "outlet"; "wiring"; "lights"])].

Definition urgency_patterns : list (string * list string) :=
  [("emergency", ["emergency"; "urgent"; "asap"; "immediately"; "broken";
                  "not working"]);
   ("high", ["this week"; "soon"; "quickly"; "today"; "tomorrow"]);
   ("normal", ["convenient"; "schedule"; "when possible"]);
   ("low", ["whenever"; "no rush"; "flexible"])].

Definition bundle_indicators : list string :=
  ["add"; "also"; "too"; "bundle"; "package"; "plus"; "include"].

Definition location_patterns : list string :=
  ["house"; "home"; "office"; "building"; "apartment"; "condo"].

(** [_update_entities_from_message], on the entity dictionary it
    updates in place: each of the four scans writes its key when it finds
    something and leaves the dictionary alone otherwise. *)
Definition _update_entities_from_message (content : string)
    (entities : gmap string Value) : gmap string Value :=
  let content_lower := Text.lower content in
  let entities :=
    set_found "service_type"
      (Dict.first_match (fun patterns => Text.any_in patterns content_lower)
                        service_patterns) entities in
  let entities :=
    set_found "urgency"
      (Dict.first_match (fun patterns => Text.any_in patterns content_lower)
                        urgency_patterns) entities in
  let entities :=
    set_flag "bundle_request" (Text.any_in bundle_indicators content_lower)
             entities in
  set_found "location_type"
    (List.find (fun pattern => Text.contains pattern content_lower)
               location_patterns) entities.

(** [add_message(role, content)]. *)
Definition add_message (role content : string) (self : ConversationState)
    : ConversationState :=
  {| messages := messages self ++ [(role, content)];
     extracted_entities :=
       if String.eqb role "user"
       then _update_entities_from_message content (extracted_entities self)
       else extracted_entities self;
     customer_preferences := customer_preferences self;
     confidence_history := confidence_history self;
     error_count := error_count self;
     last_successful_action := last_successful_action self |}.

End Prompt.

Definition _extract_entities_from_message (message : string)
    : gmap string Value :=
  let entities : gmap string Value := ∅ in
  let message_lower := Text.lower message in
  let entities :=
    set_found "service_type"
      (Dict.first_match (fun patterns => Text.any_in patterns message_lower)
                        service_patterns) entities in
  let entities :=
    set_found "urgency"
      (Dict.first_match (fun patterns => Text.any_in patterns message_lower)
                        urgency_patterns) entities in
  let entities :=
    set_flag "bundle_request" (Text.any_in bundle_indicators message_lower)
             entities in
  let entities :=
    set_flag "pricing_request" (Text.any_in pricing_indicators message_lower)
             entities in
  let entities :=
    set_flag "scheduling_request"
             (Text.any_in schedule_indicators message_lower) entities in
  entities.

(** The dictionary an agent's [think_and_act] returns, by the keys the
    orchestrator reads: ["confidence"] (a float, when present), ["error"],
    ["reasoning"] (its ["analysis"] text, when it has one),
    ["needs_continuation"], and under ["action_result"] the truthiness of
    ["available_slots"] and of ["total"] and the number ["savings"]. *)
Record AgentResult := mkAgentResult {
  res_confidence : option Q;
  res_error : option string;
  res_reasoning : option (option string);
  res_needs_continuation : bool;
  res_available_slots : bool;
  res_total : bool;
  res_savings : Q
}.

(** [{"error": str(e), "confidence": 0.0}]. *)
Definition failure_record (msg : string) : AgentResult :=
  {| res_confidence := Some 0%Q;
     res_error := Some msg;
     res_reasoning := None;
     res_needs_continuation := false;
     res_available_slots := false;
     res_total := false;
     res_savings := 0%Q |}.

(** [result.get("confidence", dflt)]. *)
Definition confidence_or (dflt : Q) (r : AgentResult) : Q :=
  match res_confidence r with
  | Some c => c
  | None => dflt
  end.

Inductive ActionType :=
| REASON
| CALENDAR_CHECK
| PRICING_QUERY
| BUNDLE_ANALYSIS
| CUSTOMER_FOLLOWUP.

(** [WorkflowStep].  The step id (a fresh uuid), the timestamp and the
    input and output snapshots (copies of values that appear elsewhere in
    the model) are left out. *)
Record WorkflowStep := mkWorkflowStep {
  step_agent_name : string;
  step_action_type : ActionType;
  step_status : string;
  step_confidence : Q
}.

(** [WorkflowContext]; a history entry is its role and its content. *)
Record WorkflowContext := mkWorkflowContext {
  ctx_request_id : string;
  customer_message : string;
  extracted_entities : gmap string Value;
  conversation_history : list (string * string);
  workflow_steps : list WorkflowStep;
  current_step : nat;
  status : string;
  error_message : option string
}.

(** [context.workflow_steps.append(step); context.current_step += 1]. *)
Definition record_step (step : WorkflowStep) (context : WorkflowContext)
    : WorkflowContext :=
  {| ctx_request_id := ctx_request_id context;
     customer_message := customer_message context;
     extracted_entities := extracted_entities context;
     conversation_history := conversation_history context;
     workflow_steps := workflow_steps context ++ [step];
     current_step := S (current_step context);
     status := status context;
     error_message := error_message context |}.

(** [context.workflow_steps.append(step)] alone. *)
Definition append_step (step : WorkflowStep) (context : WorkflowContext)
    : WorkflowContext :=
  {| ctx_request_id := ctx_request_id context;
     customer_message := customer_message context;
     extracted_entities := extracted_entities context;
     conversation_history := conversation_history context;
     workflow_steps := workflow_steps context ++ [step];
     current_step := current_step context;
     status := status context;
     error_message := error_message context |}.

(** [context.conversation_history.append(entry)]. *)
Definition append_history (entry : string * string) (context : WorkflowContext)
    : WorkflowContext :=
  {| ctx_request_id := ctx_request_id context;
     customer_message := customer_message context;
     extracted_entities := extracted_entities context;
     conversation_history := conversation_history context ++ [entry];
     workflow_steps := workflow_steps context;
     current_step := current_step context;
     status := status context;
     error_message := error_message context |}.

(** [context.status = s]. *)
Definition set_status (s : string) (context : WorkflowContext)
    : WorkflowContext :=
  {| ctx_request_id := ctx_request_id context;
     customer_message := customer_message context;
     extracted_entities := extracted_entities context;
     conversation_history := conversation_history context;
     workflow_steps := workflow_steps context;
     current_step := current_step context;
     status := s;
     error_message := error_message context |}.

(** The keys of [agent_registry]. *)
Definition agent_registry : list string :=
  ["primary_dispatcher"; "calendar_specialist"; "pricing_analyst";
   "bundle_optimizer"; "customer_relations"; "error_recovery"].

Definition registered (agent_name : string) : bool :=
  existsb (String.eqb agent_name) agent_registry.

Definition _determine_agent_chain (primary_result : AgentResult)
    (entities : gmap string Value) : list string :=
  let chain : list string := [] in
  let chain := chain ++ ["customer_relations"] in
  let chain :=
    if truthy (entities !! "bundle_request")
    then chain ++ ["bundle_optimizer"] else chain in
  let chain :=
    if (truthy (entities !! "scheduling_request")
        || among (entities !! "urgency") ["emergency"; "high"])%bool
    then chain ++ ["calendar_specialist"] else chain in
  let chain :=
    if (truthy (entities !! "pricing_request")
        || existsb (String.eqb "bundle_optimizer") chain)%bool
    then chain ++ ["pricing_analyst"] else chain in
  chain.

Definition _determine_agent_goal (agent_name : string)
    (entities : gmap string Value) : string :=
  let goals :=
    [("customer_relations", "generate_helpful_response_and_next_steps");
     ("calendar_specialist",
      ("find_optimal_appointment_slots_for_"
         ++ shown (entities !! "service_type") "general" ++ "_service")%string);
     ("pricing_analyst",
      ("calculate_accurate_pricing_for_"
         ++ shown (entities !! "service_type") "general"
         ++ "_with_transparency")%string);
     ("bundle_optimizer", "identify_and_optimize_multi_service_opportunities")] in
  Dict.get_or agent_name "provide_specialized_analysis" goals.

Definition _map_agent_to_action (agent_name : string) : ActionType :=
  let mapping :=
    [("customer_relations", CUSTOMER_FOLLOWUP);
     ("calendar_specialist", CALENDAR_CHECK);
     ("pricing_analyst", PRICING_QUERY);
     ("bundle_optimizer", BUNDLE_ANALYSIS)] in
  Dict.get_or agent_name REASON mapping.

(** [AgentResponse] (without its timestamp) and the shapes of its
    [result] dictionary. *)
Record FollowupAnalysis := mkFollowupAnalysis {
  detected_intent : string;
  recommended_agent : string;
  specific_goal : string;
  analysis_reasoning : string;
  analysis_confidence : Q
}.

Inductive ResponseResult :=
| CombinedResult (primary_analysis : AgentResult)
    (specialized_results : list (string * AgentResult))
    (total_steps : nat) (agents_involved : list string)
    (context_entities : gmap string Value)
| FollowupResult (followup_analysis : FollowupAnalysis)
    (agent_result : AgentResult)
| FollowupErrorResult (error_text followup_message : string)
| RecoveryResult (error_recovery : AgentResult) (original_error : string)
| FallbackResult (error_text recovery_error : string).

Record AgentResponse := mkAgentResponse {
  request_id : string;
  agent_name : string;
  reasoning : string;
  actions_taken : list string;
  result : ResponseResult;
  next_steps : list string;
  confidence : Q
}.

Record ServiceRequest := mkServiceRequest {
  message : string;
  customer_id : option string;
  location : option string;
  preferred_time : option string
}.

Record FollowUpRequest := mkFollowUpRequest {
  followup_request_id : string;
  followup_text : string
}.

Record Metrics := mkMetrics {
  total_requests : nat;
  successful_completions : nat;
  error_count : nat;
  average_confidence : Q
}.

(** The orchestrator object: its stores and counters. *)
Record State := mkState {
  active_workflows : gmap string WorkflowContext;
  conversation_states : gmap string Prompt.ConversationState;
  performance_metrics : Metrics
}.

(** The list [confidences] built in [_synthesize_response]. *)
Definition confidences (primary_result : AgentResult)
    (chain_results : list (string * AgentResult)) : list Q :=
  confidence_or (7 # 10) primary_result
    :: omap res_confidence (Dict.values chain_results).

(** [sum(confidences) / len(confidences) if confidences else 0.5]. *)
Definition overall (cs : list Q) : Q :=
  match cs with
  | [] => (5 # 10)%Q
  | _ :: _ => (Builtins.sum cs / inject_Z (Z.of_nat (length cs)))%Q
  end.

Definition _synthesize_next_steps
    (chain_results : list (string * AgentResult))
    (entities : gmap string Value) : list string :=
  let next_steps : list string := [] in
  let next_steps :=
    match Dict.get "calendar_specialist" chain_results with
    | Some calendar_result =>
        if res_available_slots calendar_result
        then next_steps
               ++ ["Select preferred appointment time from available slots"]
        else next_steps
    | None => next_steps
    end in
  let next_steps :=
    match Dict.get "pricing_analyst" chain_results with
    | Some pricing_result =>
        if res_total pricing_result
        then next_steps ++ ["Review service pricing and confirm booking"]
        else next_steps
    | None => next_steps
    end in
  let next_steps :=
    match Dict.get "bundle_optimizer" chain_results with
    | Some bundle_result =>
        if Qlt_le_dec 0 (res_savings bundle_result)
        then next_steps ++ ["Consider bundle services for additional savings"]
        else next_steps
    | None => next_steps
    end in
  match next_steps with
  | [] => ["Provide any additional requirements";
           "Confirm service details and preferences";
           "Schedule appointment when ready"]
  | _ :: _ => next_steps
  end.

Definition _generate_reasoning_summary (primary_result : AgentResult)
    (chain_results : list (string * AgentResult)) : string :=
  let summary_parts :=
    match res_reasoning primary_result with
    | Some analysis =>
        [("Primary Analysis: " ++ default "Completed" analysis)%string]
    | None => []
    end in
  let summary_parts :=
    summary_parts
      ++ omap (fun '(name, r) =>
                 match res_reasoning r with
                 | Some analysis =>
                     Some (name ++ ": " ++ default "Processed" analysis)%string
                 | None => None
                 end) chain_results in
  Text.join " | " summary_parts.

(** [_synthesize_response]: the response, and the confidence it stores in
    [performance_metrics["average_confidence"]]. *)
Definition _synthesize_response (rid : string) (context : WorkflowContext)
    (primary_result : AgentResult)
    (chain_results : list (string * AgentResult)) : AgentResponse :=
  let actions_taken :=
    "primary_analysis"
      :: map (fun name => (name ++ "_processing")%string)
             (Dict.keys chain_results) in
  let combined_result :=
    CombinedResult primary_result chain_results
      (length (workflow_steps context)) (Dict.keys chain_results)
      (extracted_entities context) in
  let overall_confidence := overall (confidences primary_result chain_results) in
  {| request_id := rid;
     agent_name := "OrchestrationEngine";
     reasoning := _generate_reasoning_summary primary_result chain_results;
     actions_taken := actions_taken;
     result := combined_result;
     next_steps :=
       _synthesize_next_steps chain_results (extracted_entities context);
     confidence := overall_confidence |}.

Definition intent_patterns : list (string * list string) :=
  [("bundle_request", ["add"; "also"; "too"; "bundle"; "include"; "plus"]);
   ("pricing_query", ["cost"; "price"; "how much"; "quote"; "expensive"]);
   ("scheduling_change",
    ["reschedule"; "change time"; "different day"; "earlier"; "later"]);
   ("service_modification", ["change"; "different"; "instead"; "modify"]);
   ("clarification", ["what"; "how"; "when"; "why"; "explain"])].

Definition agent_routing : list (string * string) :=
  [("bundle_request", "bundle_optimizer");
   ("pricing_query", "pricing_analyst");
   ("scheduling_change", "calendar_specialist");
   ("service_modification", "primary_dispatcher");
   ("clarification", "customer_relations");
   ("general_followup", "customer_relations")].

Definition goal_mapping : list (string * string) :=
  [("bundle_request", "analyze_additional_service_bundle_opportunities");
   ("pricing_query", "provide_detailed_pricing_breakdown_and_options");
   ("scheduling_change", "find_alternative_appointment_slots");
   ("service_modification", "reassess_service_requirements_and_options");
   ("clarification", "provide_clear_explanation_and_guidance");
   ("general_followup", "address_customer_concerns_and_provide_assistance")].

(** [_analyze_followup_intent].  Both table reads are on keys the tables
    hold, so the subscripts cannot raise; the context is not read. *)
Definition _analyze_followup_intent (context : WorkflowContext)
    (followup_message : string) : FollowupAnalysis :=
  let followup_lower := Text.lower followup_message in
  let detected_intent :=
    default "general_followup"
      (Dict.first_match (fun patterns => Text.any_in patterns followup_lower)
                        intent_patterns) in
  let recommended_agent := Dict.get_or detected_intent "" agent_routing in
  let specific_goal := Dict.get_or detected_intent "" goal_mapping in
  {| detected_intent := detected_intent;
     recommended_agent := recommended_agent;
     specific_goal := specific_goal;
     analysis_reasoning :=
       ("Followup analysis detected " ++ detected_intent ++ ", routing to "
          ++ recommended_agent)%string;
     analysis_confidence := (85 # 100)%Q |}.

Definition _determine_followup_next_steps (followup_result : AgentResult)
    : list string :=
  if res_needs_continuation followup_result
  then ["Review updated information and options";
        "Confirm preferences and requirements";
        "Proceed with service booking when ready"]
  else ["All requirements addressed";
        "Ready to proceed with service booking";
        "Contact us for any additional questions"].

Definition _handle_followup_error (followup : FollowUpRequest)
    (error_text : string) : AgentResponse :=
  {| request_id := followup_request_id followup;
     agent_name := "FollowupErrorHandler";
     reasoning := ("Follow-up processing error: " ++ error_text)%string;
     actions_taken := ["error_detection"; "followup_error_handling"];
     result := FollowupErrorResult error_text (followup_text followup);
     next_steps := ["Please rephrase your request";
                    "Contact support for assistance";
                    "Try again with simpler language"];
     confidence := (4 # 10)%Q |}.

(** The entry [chain_results] gets for an outcome: the agent's result, or
    the failure record of the exception. *)
Definition entry_of (o : Outcome AgentResult) : AgentResult :=
  match o with
  | Returned r => r
  | Raised e => failure_record (exn_str e)
  end.

(** The term an outcome adds to [confidences]: [0.0] for a failure, the
    result's ["confidence"] for a success that carries one. *)
Definition confidence_term (o : Outcome AgentResult) : option Q :=
  match o with
  | Returned r => res_confidence r
  | Raised _ => Some 0%Q
  end.

(** The entries a trace of outcomes leaves in [chain_results]. *)
Definition chain_entries (outcomes : list (string * Outcome AgentResult))
    : list (string * AgentResult) :=
  map (fun '(name, o) => (name, entry_of o)) outcomes.

(** The terms a trace of outcomes adds to [confidences]. *)
Definition confidence_terms (outcomes : list (string * Outcome AgentResult))
    : list Q :=
  omap (fun '(_, o) => confidence_term o) outcomes.

(** The steps a trace of outcomes appends to [workflow_steps]: one per
    success, none for a failure. *)
Definition recorded_steps (outcomes : list (string * Outcome AgentResult))
    : list WorkflowStep :=
  omap (fun '(name, o) =>
          match o with
          | Returned r =>
              Some {| step_agent_name := name;
                      step_action_type := _map_agent_to_action name;
                      step_status := "completed";
                      step_confidence := confidence_or (7 # 10) r |}
          | Raised _ => None
          end) outcomes.

(** [result["specialized_results"]] of a synthesized response. *)
Definition specialized_results_of (r : ResponseResult)
    : option (list (string * AgentResult)) :=
  match r with
  | CombinedResult _ specialized _ _ _ => Some specialized
  | _ => None
  end.

(** *** Code that calls the agents

    [ReACTAgent.think_and_act] is an external collaborator: an agent,
    named by its registry key, is given the context and a goal and either
    returns a result dictionary or raises.  It is assumed not to mutate
    the context it is handed. *)
Section WithAgents.

Variable think_and_act :
  string -> WorkflowContext -> string -> Outcome AgentResult.

(** The body of the [for] loop of [_execute_agent_chain], on the pair of
    the context and [chain_results].  A registry miss raises [KeyError]
    inside the [try], like a failure of the agent. *)
Definition run_agent (name : string)
    (st : WorkflowContext * list (string * AgentResult))
    : WorkflowContext * list (string * AgentResult) :=
  let '(context, chain_results) := st in
  if registered name then
    let agent_goal := _determine_agent_goal name (extracted_entities context) in
    match think_and_act name context agent_goal with
    | Returned agent_result =>
        let chain_results := Dict.set name agent_result chain_results in
        let context :=
          record_step
            {| step_agent_name := name;
               step_action_type := _map_agent_to_action name;
               step_status := "completed";
               step_confidence := confidence_or (7 # 10) agent_result |}
            context in
        (context, chain_results)
    | Raised e =>
        (context, Dict.set name (failure_record (exn_str e)) chain_results)
    end
  else
    (context,
     Dict.set name (failure_record (exn_str (KeyError name))) chain_results).

(** The loop over a given chain, from a given [chain_results]. *)
Definition run_chain (chain : list string)
    (st : WorkflowContext * list (string * AgentResult))
    : WorkflowContext * list (string * AgentResult) :=
  fold_left (fun st name => run_agent name st) chain st.

(** What the loop asks of the agent [name] in [context]: the agent's
    answer, or the [KeyError] of the registry. *)
Definition agent_outcome (name : string) (context : WorkflowContext)
    : Outcome AgentResult :=
  if registered name
  then think_and_act name context
         (_determine_agent_goal name (extracted_entities context))
  else Raised (KeyError name).

(** The trace of a run of the loop: each agent of the chain, in order,
    with the outcome it had in the context the loop had reached.  The
    loop itself keeps no such trace; it is what the statements about a
    run refer to. *)
Fixpoint chain_outcomes (chain : list string) (context : WorkflowContext)
    : list (string * Outcome AgentResult) :=
  match chain with
  | [] => []
  | name :: rest =>
      (name, agent_outcome name context)
        :: chain_outcomes rest (fst (run_agent name (context, [])))
  end.

Definition _execute_agent_chain (context : WorkflowContext)
    (primary_result : AgentResult)
    : WorkflowContext * list (string * AgentResult) :=
  let chain_results : list (string * AgentResult) := [] in
  let agent_chain :=
    _determine_agent_chain primary_result (extracted_entities context) in
  run_chain agent_chain (context, chain_results).

Definition _initialize_workflow_context (rid : string)
    (request : ServiceRequest) : WorkflowContext :=
  {| ctx_request_id := rid;
     customer_message := message request;
     extracted_entities := _extract_entities_from_message (message request);
     conversation_history := [("user", message request)];
     workflow_steps := [];
     current_step := 0;
     status := "initializing";
     error_message := None |}.

(** [_execute_primary_analysis]; the prompt it composes first is not
    used afterwards. *)
Definition _execute_primary_analysis (context : WorkflowContext)
    : Outcome (WorkflowContext * AgentResult) :=
  match think_and_act "primary_dispatcher" context
          "analyze_customer_request_and_determine_workflow" with
  | Returned primary_result =>
      Returned
        (record_step
           {| step_agent_name := "primary_dispatcher";
              step_action_type := REASON;
              step_status := "completed";
              step_confidence := confidence_or (7 # 10) primary_result |}
           context,
         primary_result)
  | Raised e => Raised e
  end.

Definition _handle_orchestration_error (rid : string)
    (request : ServiceRequest) (error_text : string) : AgentResponse :=
  let error_context :=
    {| ctx_request_id := rid;
       customer_message := message request;
       extracted_entities := {[ "error_occurred" := VBool true ]};
       conversation_history := [];
       workflow_steps := [];
       current_step := 0;
       status := "error_recovery";
       error_message := Some error_text |} in
  match think_and_act "error_recovery" error_context
          "recover_from_orchestration_error_and_assist_customer" with
  | Returned recovery_result =>
      {| request_id := rid;
         agent_name := "ErrorRecoverySystem";
         reasoning :=
           ("Error recovery executed: "
              ++ match res_reasoning recovery_result with
                 | Some (Some analysis) => analysis
                 | _ => "System error handled"
                 end)%string;
         actions_taken := ["error_detection"; "recovery_processing";
                           "customer_assistance"];
         result := RecoveryResult recovery_result error_text;
         next_steps :=
           ["Contact customer service for additional assistance";
            "Retry request with simplified requirements";
            "Provide direct contact information for immediate help"];
         confidence := (6 # 10)%Q |}
  | Raised recovery_error =>
      {| request_id := rid;
         agent_name := "FallbackErrorHandler";
         reasoning :=
           ("System encountered an error: " ++ error_text
              ++ ". Recovery also failed: " ++ exn_str recovery_error)%string;
         actions_taken := ["error_detection"; "fallback_response"];
         result := FallbackResult error_text (exn_str recovery_error);
         next_steps :=
           ["Please contact our customer service team directly";
            "Provide your request details to our support staff";
            "We apologize for the technical difficulty"];
         confidence := (3 # 10)%Q |}
  end.

(** [process_service_request], for the request id [rid] drawn by
    [uuid4].  The context object is stored before the agents run and is
    mutated in place, so the store always holds its latest state. *)
Definition process_service_request (self : State) (rid : string)
    (request : ServiceRequest) : State * AgentResponse :=
  let workflow_context := _initialize_workflow_context rid request in
  let workflows := <[rid := workflow_context]> (active_workflows self) in
  let states :=
    <[rid := Prompt.add_message "user" (message request) Prompt.new_state]>
      (conversation_states self) in
  let m := performance_metrics self in
  let requests := S (total_requests m) in
  match _execute_primary_analysis workflow_context with
  | Returned (context, primary_result) =>
      let '(context, chain_result) :=
        _execute_agent_chain context primary_result in
      let final_response :=
        _synthesize_response rid context primary_result chain_result in
      ({| active_workflows :=
            <[rid := set_status "completed" context]> workflows;
          conversation_states := states;
          performance_metrics :=
            {| total_requests := requests;
               successful_completions := S (successful_completions m);
               error_count := error_count m;
               average_confidence := confidence final_response |} |},
       final_response)
  | Raised e =>
      ({| active_workflows := workflows;
          conversation_states := states;
          performance_metrics :=
            {| total_requests := requests;
               successful_completions := successful_completions m;
               error_count := S (error_count m);
               average_confidence := average_confidence m |} |},
       _handle_orchestration_error rid request (exn_str e))
  end.

(** [handle_followup_request].  The membership test and its [raise] come
    before the [try]; everything after them is inside it. *)
Definition handle_followup_request (self : State)
    (followup : FollowUpRequest) : State * Outcome AgentResponse :=
  let rid := followup_request_id followup in
  match active_workflows self !! rid with
  | None =>
      (self, Raised (ValueError ("Workflow " ++ rid ++ " not found")%string))
  | Some workflow_context =>
      match conversation_states self !! rid with
      | None =>
          (self,
           Returned (_handle_followup_error followup (exn_str (KeyError rid))))
      | Some conversation_state =>
          let conversation_state :=
            Prompt.add_message "user" (followup_text followup)
                               conversation_state in
          let workflow_context :=
            append_history ("user", followup_text followup) workflow_context in
          let followup_analysis :=
            _analyze_followup_intent workflow_context (followup_text followup) in
          let name := recommended_agent followup_analysis in
          match think_and_act name workflow_context
                  (specific_goal followup_analysis) with
          | Returned followup_result =>
              let response :=
                {| request_id := rid;
                   agent_name := "OrchestrationEngine";
                   reasoning :=
                     ("Follow-up processed by " ++ name ++ ": "
                        ++ analysis_reasoning followup_analysis)%string;
                   actions_taken :=
                     ["followup_analysis"; (name ++ "_processing")%string];
                   result := FollowupResult followup_analysis followup_result;
                   next_steps := _determine_followup_next_steps followup_result;
                   confidence := confidence_or (8 # 10) followup_result |} in
              let workflow_context :=
                append_step
                  {| step_agent_name := agent_name response;
                     step_action_type := CUSTOMER_FOLLOWUP;
                     step_status := "completed";
                     step_confidence := confidence response |}
                  workflow_context in
              ({| active_workflows :=
                    <[rid := workflow_context]> (active_workflows self);
                  conversation_states :=
                    <[rid := conversation_state]> (conversation_states self);
                  performance_metrics := performance_metrics self |},
               Returned response)
          | Raised e =>
              ({| active_workflows :=
                    <[rid := workflow_context]> (active_workflows self);
                  conversation_states :=
                    <[rid := conversation_state]> (conversation_states self);
                  performance_metrics := performance_metrics self |},
               Returned (_handle_followup_error followup (exn_str e)))
          end
      end
  end.

End WithAgents.

(** A status report of [get_workflow_status]; its [last_updated] entry, a
    timestamp, is not modelled.  [agents_involved] is [list(set(...))]. *)
Record WorkflowStatus := mkWorkflowStatus {
  ws_request_id : string;
  ws_status : string;
  ws_current_step : nat;
  ws_total_steps : nat;
  ws_agents_involved : list string;
  ws_error_message : option string
}.

Definition get_workflow_status (self : State) (rid : string)
    : option WorkflowStatus :=
  match active_workflows self !! rid with
  | None => None
  | Some context =>
      Some {| ws_request_id := rid;
              ws_status := status context;
              ws_current_step := current_step context;
              ws_total_steps := length (workflow_steps context);
              ws_agents_involved :=
                elements (list_to_set (map step_agent_name
                                           (workflow_steps context))
                          : gset string);
              ws_error_message := error_message context |}
  end.

End Orchestrator.

(** ** The specification's vocabulary

    The planner's rule table and the confidence rule as the specification
    words them, to be compared with the code above. *)

Module Spec.

Inductive StageId := communication | bundle | calendar | pricing.

Inductive Urgency := emergency | high | normal | low | unset.

(** The intent facts the planner reads. *)
Record IntentFacts := mkIntentFacts {
  urgency : Urgency;
  bundleRequested : bool;
  pricingRequested : bool;
  schedulingRequested : bool
}.

Definition StageId_eqb (a b : StageId) : bool :=
  match a, b with
  | communication, communication | bundle, bundle
  | calendar, calendar | pricing, pricing => true
  | _, _ => false
  end.

Definition urgent (u : Urgency) : bool :=
  match u with
  | emergency | high => true
  | _ => false
  end.

(** The rule table, evaluated in its fixed order. *)
Definition plan (facts : IntentFacts) : list StageId :=
  let stages := [communication] in
  let stages :=
    if bundleRequested facts then stages ++ [bundle] else stages in
  let stages :=
    if (schedulingRequested facts || urgent (urgency facts))%bool
    then stages ++ [calendar] else stages in
  let stages :=
    if (pricingRequested facts || existsb (StageId_eqb bundle) stages)%bool
    then stages ++ [pricing] else stages in
  stages.

(** The rule table read stage by stage: whether the facts select a
    stage. *)
Definition selects (facts : IntentFacts) (s : StageId) : bool :=
  match s with
  | communication => true
  | bundle => bundleRequested facts
  | calendar => (schedulingRequested facts || urgent (urgency facts))%bool
  | pricing => (pricingRequested facts || bundleRequested facts)%bool
  end.

(** The stages in their fixed order. *)
Definition all_stages : list StageId :=
  [communication; bundle; calendar; pricing].

(** The agent that runs a stage. *)
Definition agent_of (s : StageId) : string :=
  match s with
  | communication => "customer_relations"
  | bundle => "bundle_optimizer"
  | calendar => "calendar_specialist"
  | pricing => "pricing_analyst"
  end.

Definition urgency_name (u : Urgency) : option string :=
  match u with
  | emergency => Some "emergency"
  | high => Some "high"
  | normal => Some "normal"
  | low => Some "low"
  | unset => None
  end.

(** The entity dictionary the extractor writes for given facts: a key per
    recognised value, [True] under a flag's key when the flag is set. *)
Definition entities_of (facts : IntentFacts)
    : gmap string Orchestrator.Value :=
  Orchestrator.set_flag "scheduling_request" (schedulingRequested facts)
    (Orchestrator.set_flag "pricing_request" (pricingRequested facts)
       (Orchestrator.set_flag "bundle_request" (bundleRequested facts)
          (Orchestrator.set_found "urgency" (urgency_name (urgency facts)) ∅))).

(** The facts the planner reads off an entity dictionary. *)
Definition facts_of (entities : gmap string Orchestrator.Value) : IntentFacts :=
  {| urgency :=
       match entities !! "urgency" with
       | Some (Orchestrator.VStr u) =>
           if String.eqb u "emergency" then emergency
           else if String.eqb u "high" then high
           else if String.eqb u "normal" then normal
           else if String.eqb u "low" then low
           else unset
       | _ => unset
       end;
     bundleRequested := Orchestrator.truthy (entities !! "bundle_request");
     pricingRequested := Orchestrator.truthy (entities !! "pricing_request");
     schedulingRequested :=
       Orchestrator.truthy (entities !! "scheduling_request") |}.

(** [merged] is the set union of [stored] and [extracted]. *)
Definition is_union (stored extracted merged : list string) : Prop :=
  forall x, In x merged <-> In x stored \/ In x extracted.

(** The arithmetic mean. *)
Definition mean (xs : list Q) : Q :=
  (Builtins.sum xs / inject_Z (Z.of_nat (length xs)))%Q.

(** The confidences of the stages of a run that succeeded: a stage's
    confidence is the one its step is recorded with. *)
Definition successful_confidences
    (outcomes : list (string * Outcome Orchestrator.AgentResult)) : list Q :=
  omap (fun '(_, o) =>
          match o with
          | Returned r => Some (Orchestrator.confidence_or (7 # 10) r)
          | Raised _ => None
          end) outcomes.

(** A run has a failed stage. *)
Definition has_failure
    (outcomes : list (string * Outcome Orchestrator.AgentResult)) : bool :=
  existsb (fun '(_, o) => match o with Raised _ => true | Returned _ => false end)
          outcomes.

End Spec.

(** ** Sample data *)

Module Sample.

Definition scenario_text : string :=
  "My AC is broken. Can someone fix it this week?".

Definition result_with (c : Q) : Orchestrator.AgentResult :=
  {| Orchestrator.res_confidence := Some c;
     Orchestrator.res_error := None;
     Orchestrator.res_reasoning := None;
     Orchestrator.res_needs_continuation := false;
     Orchestrator.res_available_slots := false;
     Orchestrator.res_total := false;
     Orchestrator.res_savings := 0%Q |}.

(** Agents of which the calendar specialist times out and every other one
    answers with confidence 0.9. *)
Definition calendar_down (name : string) (context : Orchestrator.WorkflowContext)
    (goal : string) : Outcome Orchestrator.AgentResult :=
  if String.eqb name "calendar_specialist"
  then Raised (AgentFailure "calendar service timed out")
  else Returned (result_with (9 # 10)).

(** The context of a request for a repair [soon]. *)
Definition soon_request : Orchestrator.ServiceRequest :=
  {| Orchestrator.message := "Please repair the heating soon";
     Orchestrator.customer_id := None;
     Orchestrator.location := None;
     Orchestrator.preferred_time := None |}.

Definition soon_context : Orchestrator.WorkflowContext :=
  Orchestrator._initialize_workflow_context "req-1" soon_request.

Definition empty_state : Orchestrator.State :=
  {| Orchestrator.active_workflows := ∅;
     Orchestrator.conversation_states := ∅;
     Orchestrator.performance_metrics :=
       {| Orchestrator.total_requests := 0;
          Orchestrator.successful_completions := 0;
          Orchestrator.error_count := 0;
          Orchestrator.average_confidence := 0%Q |} |}.

Definition unknown_followup : Orchestrator.FollowUpRequest :=
  {| Orchestrator.followup_request_id := "req-404";
     Orchestrator.followup_text := "Can you add a thermostat too?" |}.

(** A stored session of the demo: an AC repair with no additional
    service. *)
Definition ac_session : SimpleDemo.Session :=
  {| SimpleDemo.analysis := SimpleDemo.analyze_customer_request scenario_text;
     SimpleDemo.pricing := None;
     SimpleDemo.conversation := [scenario_text] |}.

Definition one_session : gmap string SimpleDemo.Session :=
  {[ "req_1" := ac_session ]}.

End Sample.

(** ** Further vocabulary for the properties *)

(** Two breakdowns agree, key by key. *)
Definition pricing_eq (p q : Pricing) : Prop :=
  (base_cost p == base_cost q /\ addon_cost p == addon_cost q
   /\ subtotal p == subtotal q /\ bundle_discount p == bundle_discount q
   /\ urgency_surcharge p == urgency_surcharge q /\ tax p == tax q
   /\ total p == total q /\ savings p == savings q)%Q.


(** The agents are calibrated: every confidence they return lies between 0
    and 1. *)
Definition calibrated
    (think_and_act :
       string -> Orchestrator.WorkflowContext -> string
       -> Outcome Orchestrator.AgentResult) : Prop :=
  forall name context goal r c,
    think_and_act name context goal = Returned r ->
    Orchestrator.res_confidence r = Some c ->
    (0 <= c <= 1)%Q.

(** The keyword tests of the orchestrator's extractor on a message. *)
Definition found_service (message : string) : option string :=
  Dict.first_match (fun patterns => Text.any_in patterns (Text.lower message))
                   Orchestrator.service_patterns.

Definition found_urgency (message : string) : option string :=
  Dict.first_match (fun patterns => Text.any_in patterns (Text.lower message))
                   Orchestrator.urgency_patterns.

(** The value a flag's key holds: [True] when set, absent otherwise. *)
Definition flag_entry (flag : bool) : option Orchestrator.Value :=
  if flag then Some (Orchestrator.VBool true) else None.

(** The chain the orchestrator plans, as a function of the keywords of the
    message. *)
Definition keyword_chain (message : string) : list string :=
  let lowered := Text.lower message in
  let bundle := Text.any_in Orchestrator.bundle_indicators lowered in
  let pricing := Text.any_in Orchestrator.pricing_indicators lowered in
  let scheduling := Text.any_in Orchestrator.schedule_indicators lowered in
  let urgent :=
    (Text.any_in (Dict.get_or "emergency" [] Orchestrator.urgency_patterns) lowered
     || Text.any_in (Dict.get_or "high" [] Orchestrator.urgency_patterns) lowered)%bool in
  ["customer_relations"]
    ++ (if bundle then ["bundle_optimizer"] else [])
    ++ (if (scheduling || urgent)%bool then ["calendar_specialist"] else [])
    ++ (if (pricing || bundle)%bool then ["pricing_analyst"] else []).

(** [list(set(xs))] gives the distinct elements of [xs] in an order that
    Python does not fix: it may differ from one run, and from one call, to
    the next.  A listing is any function that returns the distinct elements
    in some order. *)
Definition set_listing (listing : list string -> list string) : Prop :=
  forall xs, NoDup (listing xs) /\ forall x, In x (listing xs) <-> In x xs.

(** [handle_followup] with the order of [list(set(...))] left open:
    [SimpleDemo.handle_followup] is its instance at [SimpleDemo.list_set]. *)
Definition handle_followup_in (listing : list string -> list string)
    (active_sessions : gmap string SimpleDemo.Session)
    (request_id followup_message : string)
    : gmap string SimpleDemo.Session * SimpleDemo.FollowupReply :=
  match active_sessions !! request_id with
  | None => (active_sessions, SimpleDemo.SessionNotFound)
  | Some session =>
      let conversation := SimpleDemo.conversation session ++ [followup_message] in
      let followup_analysis :=
        SimpleDemo.analyze_customer_request followup_message in
      if SimpleDemo.bundle_request followup_analysis then
        let original_services :=
          SimpleDemo.additional_services (SimpleDemo.analysis session) in
        let new_services := SimpleDemo.additional_services followup_analysis in
        let all_services := listing (original_services ++ new_services) in
        let updated_pricing :=
          SimpleDemo.calculate_pricing
            (SimpleDemo.service_type (SimpleDemo.analysis session)) all_services
            (SimpleDemo.urgency (SimpleDemo.analysis session)) in
        let session' :=
          {| SimpleDemo.analysis :=
               SimpleDemo.set_additional_services (SimpleDemo.analysis session)
                                                  all_services;
             SimpleDemo.pricing := Some updated_pricing;
             SimpleDemo.conversation := conversation |} in
        (<[request_id := session']> active_sessions,
         SimpleDemo.BundleUpdated all_services updated_pricing)
      else
        let session' :=
          {| SimpleDemo.analysis := SimpleDemo.analysis session;
             SimpleDemo.pricing := SimpleDemo.pricing session;
             SimpleDemo.conversation := conversation |} in
        (<[request_id := session']> active_sessions, SimpleDemo.Acknowledged)
  end.

(** The session [handle_followup_in] leaves in place of a stored one. *)
Definition followed_up_in (listing : list string -> list string)
    (session : SimpleDemo.Session) (followup_message : string)
    : SimpleDemo.Session :=
  let followup_analysis := SimpleDemo.analyze_customer_request followup_message in
  let conversation := SimpleDemo.conversation session ++ [followup_message] in
  if SimpleDemo.bundle_request followup_analysis then
    let all_services :=
      listing
        (SimpleDemo.additional_services (SimpleDemo.analysis session)
           ++ SimpleDemo.additional_services followup_analysis) in
    {| SimpleDemo.analysis :=
         SimpleDemo.set_additional_services (SimpleDemo.analysis session)
                                            all_services;
       SimpleDemo.pricing :=
         Some (SimpleDemo.calculate_pricing
                 (SimpleDemo.service_type (SimpleDemo.analysis session))
                 all_services
                 (SimpleDemo.urgency (SimpleDemo.analysis session)));
       SimpleDemo.conversation := conversation |}
  else
    {| SimpleDemo.analysis := SimpleDemo.analysis session;
       SimpleDemo.pricing := SimpleDemo.pricing session;
       SimpleDemo.conversation := conversation |}.

(** Two stored sessions that differ at most in the order of their
    additional services: the same service type and urgency, the same
    services up to order, and pricings that agree key by key. *)
Definition same_booking (s s' : SimpleDemo.Session) : Prop :=
  SimpleDemo.service_type (SimpleDemo.analysis s)
  = SimpleDemo.service_type (SimpleDemo.analysis s')
  /\ SimpleDemo.urgency (SimpleDemo.analysis s)
     = SimpleDemo.urgency (SimpleDemo.analysis s')
  /\ Permutation (SimpleDemo.additional_services (SimpleDemo.analysis s))
                 (SimpleDemo.additional_services (SimpleDemo.analysis s'))
  /\ match SimpleDemo.pricing s, SimpleDemo.pricing s' with
     | Some p, Some p' => pricing_eq p p'
     | None, None => True
     | _, _ => False
     end.

(** ** More of Python's string methods *)

Module Str.

(** [c.upper()] on one ASCII character. *)
Definition upper_ascii (c : ascii) : ascii :=
  let n := nat_of_ascii c in
  if (Nat.leb 97 n && Nat.leb n 122)%bool then ascii_of_nat (n - 32) else c.

(** [c.isalpha()] on one ASCII character. *)
Definition is_alpha (c : ascii) : bool :=
  let n := nat_of_ascii c in
  ((Nat.leb 65 n && Nat.leb n 90) || (Nat.leb 97 n && Nat.leb n 122))%bool.

(** [c.isspace()] on one ASCII character: tab to carriage return, the four
    separators 28 to 31, and the space. *)
Definition is_space (c : ascii) : bool :=
  let n := nat_of_ascii c in
  ((Nat.leb 9 n && Nat.leb n 13) || (Nat.leb 28 n && Nat.leb n 32))%bool.

(** [s.replace(a, b)] for one-character [a] and [b]. *)
Fixpoint replace_char (a b : ascii) (s : string) : string :=
  match s with
  | EmptyString => EmptyString
  | String c rest =>
      String (if Ascii.eqb c a then b else c) (replace_char a b rest)
  end.

(** [s.title()]: a letter that follows a letter is lowered, any other
    letter is raised. *)
Fixpoint title_from (after_letter : bool) (s : string) : string :=
  match s with
  | EmptyString => EmptyString
  | String c rest =>
      String (if is_alpha c
              then (if after_letter then Text.lower_ascii c else upper_ascii c)
              else c)
             (title_from (is_alpha c) rest)
  end.

Definition title (s : string) : string := title_from false s.

(** [s.lstrip()]. *)
Fixpoint lstrip (s : string) : string :=
  match s with
  | EmptyString => EmptyString
  | String c rest => if is_space c then lstrip rest else s
  end.

(** [s.rstrip()]. *)
Fixpoint rstrip (s : string) : string :=
  match s with
  | EmptyString => EmptyString
  | String c rest =>
      match rstrip rest with
      | EmptyString => if is_space c then EmptyString else String c EmptyString
      | kept => String c kept
      end
  end.

(** [s.strip()]. *)
Definition strip (s : string) : string := rstrip (lstrip s).

(** [s.split(sep)] for a one-character [sep]: the pieces between the
    separators, empty pieces included; the empty string has one piece. *)
Fixpoint split (sep : ascii) (s : string) : list string :=
  match s with
  | EmptyString => [EmptyString]
  | String c rest =>
      if Ascii.eqb c sep then EmptyString :: split sep rest
      else match split sep rest with
           | piece :: pieces => String c piece :: pieces
           | [] => [String c EmptyString]
           end
  end.

(** Truthiness of a string: it is not empty. *)
Definition nonempty (s : string) : bool :=
  match s with
  | EmptyString => false
  | String _ _ => true
  end.

(** [c in s] for a character. *)
Fixpoint has_char (c : ascii) (s : string) : bool :=
  match s with
  | EmptyString => false
  | String c' rest => (Ascii.eqb c' c || has_char c rest)%bool
  end.

(** [s.isascii()]. *)
Fixpoint is_ascii (s : string) : bool :=
  match s with
  | EmptyString => true
  | String c rest => (Nat.ltb (nat_of_ascii c) 128 && is_ascii rest)%bool
  end.

End Str.

(** ** Outcomes of code that subscripts lists and dictionaries *)

Inductive Attempt (A : Type) :=
| Done (a : A)
| IndexError
| KeyErrorOn (key : string).
Arguments Done {A} a.
Arguments IndexError {A}.
Arguments KeyErrorOn {A} key.

(** ** [simple_demo.py]: the calendar, the response and the request flow *)

Module SimpleDemoFlow.

(** A slot of the mock calendar.  Its ["datetime"] is the formatted clock
    reading [datetime] days from now (same time of day); the model keeps the
    number of days. *)
Record Slot := mkSlot {
  datetime : nat;
  technician : string;
  duration : string;
  surcharge : Q
}.

Record Availability := mkAvailability {
  available_slots : list Slot;
  earliest_available : nat;
  emergency_available : bool
}.

(** [check_calendar_availability]; [service_type] is only printed.  The
    comprehension over [range(3)] that subscripts the three names is the
    indexed map over them. *)
Definition check_calendar_availability (service_type urgency : string)
    : Attempt Availability :=
  let base_date := 1%nat in
  let slots :=
    if String.eqb urgency "emergency" then
      [{| datetime := base_date;
          technician := "Emergency Tech Mike";
          duration := "2-3 hours";
          surcharge := 75%Q |}]
    else
      imap (fun i name =>
              {| datetime := (base_date + i)%nat;
                 technician := ("Tech " ++ name)%string;
                 duration := "2-3 hours";
                 surcharge := 0%Q |})
           ["Sarah"; "John"; "Mike"] in
  match slots with
  | first :: _ =>
      Done {| available_slots := slots;
              earliest_available := datetime first;
              emergency_available := String.eqb urgency "emergency" |}
  | [] => IndexError
  end.

(** [determine_next_steps]; a dictionary that is given is non-empty, hence
    true. *)
Definition determine_next_steps (analysis : SimpleDemo.Analysis)
    (availability : option Availability) (pricing : option Pricing)
    : list string :=
  let steps : list string := [] in
  let steps :=
    match availability with
    | Some _ => steps ++ ["Select preferred appointment time"]
    | None => steps
    end in
  let steps :=
    match pricing with
    | Some _ => steps ++ ["Review pricing details"]
    | None => steps
    end in
  let steps :=
    match SimpleDemo.additional_services analysis with
    | [] => steps ++ ["Consider additional services for bundle savings"]
    | _ :: _ => steps
    end in
  steps ++ ["Confirm service booking"].

(** The literal dictionary of [generate_response]. *)
Definition urgency_texts : list (string * string) :=
  [("emergency", "emergency"); ("high", "urgent"); ("normal", "");
   ("low", "flexible")].

Section Formatting.

(** [f"{x:.2f}"] of an amount, and the ["%Y-%m-%d %H:%M"] rendering of the
    clock a number of days from now. *)
Variable format_money : Q -> string.
Variable format_date : nat -> string.

Definition generate_response (analysis : SimpleDemo.Analysis)
    (availability : option Availability) (pricing : option Pricing)
    : Attempt string :=
  let service_name :=
    Str.title (Str.replace_char "_" " " (SimpleDemo.service_type analysis)) in
  match Dict.get (SimpleDemo.urgency analysis) urgency_texts with
  | None => KeyErrorOn (SimpleDemo.urgency analysis)
  | Some urgency_text =>
      let response_parts : list string := [] in
      let response_parts :=
        if Str.nonempty urgency_text then
          response_parts
            ++ [("I understand you need " ++ urgency_text ++ " "
                   ++ Text.lower service_name ++ " service.")%string]
        else
          response_parts
            ++ [("I can help you with your " ++ Text.lower service_name
                   ++ " request.")%string] in
      let response_parts :=
        match availability with
        | Some a =>
            response_parts
              ++ [("Good news! We have availability as early as "
                     ++ format_date (earliest_available a) ++ ".")%string]
        | None => response_parts
        end in
      let response_parts :=
        match pricing with
        | Some p =>
            if Qlt_le_dec 0 (savings p) then
              response_parts
                ++ [("The total cost is $" ++ format_money (total p)
                       ++ ", and you'll save $" ++ format_money (savings p)
                       ++ " with our service bundle!")%string]
            else
              response_parts
                ++ [("The estimated cost is $" ++ format_money (total p)
                       ++ ".")%string]
        | None => response_parts
        end in
      let response_parts :=
        response_parts ++ ["Would you like me to schedule this service for you?"] in
      Done (Text.join " " response_parts)
  end.

(** What [process_service_request] returns. *)
Record Processed := mkProcessed {
  request_id : string;
  analysis : SimpleDemo.Analysis;
  availability : option Availability;
  pricing : option Pricing;
  response : string;
  next_steps : list string
}.

(** [process_service_request], for the request id [rid] made of the clock
    reading.  An exception of a step leaves before the session is stored. *)
Definition process_service_request
    (active_sessions : gmap string SimpleDemo.Session) (rid message : string)
    : Attempt (gmap string SimpleDemo.Session * Processed) :=
  let analysis := SimpleDemo.analyze_customer_request message in
  let scheduled :=
    if SimpleDemo.requires_scheduling analysis
    then match check_calendar_availability (SimpleDemo.service_type analysis)
                                           (SimpleDemo.urgency analysis) with
         | Done a => Done (Some a)
         | IndexError => IndexError
         | KeyErrorOn key => KeyErrorOn key
         end
    else Done None in
  match scheduled with
  | IndexError => IndexError
  | KeyErrorOn key => KeyErrorOn key
  | Done availability =>
      let pricing :=
        if (SimpleDemo.requires_pricing analysis
            || match availability with Some _ => true | None => false end)%bool
        then Some (SimpleDemo.calculate_pricing
                     (SimpleDemo.service_type analysis)
                     (SimpleDemo.additional_services analysis)
                     (SimpleDemo.urgency analysis))
        else None in
      match generate_response analysis availability pricing with
      | IndexError => IndexError
      | KeyErrorOn key => KeyErrorOn key
      | Done response =>
          let session :=
            {| SimpleDemo.analysis := analysis;
               SimpleDemo.pricing := pricing;
               SimpleDemo.conversation := [message] |} in
          Done (<[rid := session]> active_sessions,
                {| request_id := rid;
                   analysis := analysis;
                   availability := availability;
                   pricing := pricing;
                   response := response;
                   next_steps :=
                     determine_next_steps analysis availability pricing |})
      end
  end.

End Formatting.

End SimpleDemoFlow.

(** ** [langchain_agent_system.py]: the calendar service and the tools *)

Module CalendarService.

(** A slot; ["datetime"] is kept as the number of days from now, as in
    [SimpleDemoFlow.Slot]. *)
Record Slot := mkSlot {
  datetime : nat;
  technician : string;
  estimated_duration : string;
  travel_time : string;
  surcharge : Q
}.

Record Availability := mkAvailability {
  available_slots : list Slot;
  earliest_available : option nat;
  emergency_available : bool
}.

(** [CalendarService.check_availability]; neither [service_type] nor
    [location] is read. *)
Definition check_availability (service_type urgency : string)
    (location : option string) : Availability :=
  let base_date := 1%nat in
  let slots :=
    if String.eqb urgency "emergency" then
      [{| datetime := base_date;
          technician := "Emergency Tech Mike";
          estimated_duration := "2-3 hours";
          travel_time := "30 minutes";
          surcharge := 75%Q |}]
    else
      imap (fun i name =>
              {| datetime := (base_date + i)%nat;
                 technician := ("Tech " ++ name)%string;
                 estimated_duration := "2-3 hours";
                 travel_time := "15 minutes";
                 surcharge := 0%Q |})
           ["Sarah"; "John"; "Mike"] in
  {| available_slots := slots;
     earliest_available :=
       match slots with
       | first :: _ => Some (datetime first)
       | [] => None
       end;
     emergency_available := String.eqb urgency "emergency" |}.

End CalendarService.

Module AnalysisTool.

Definition service_keywords : list (string * list string) :=
  [("ac_repair", ["ac"; "air conditioning"; "cooling"; "hvac"; "conditioner"]);
   ("heating", ["heat"; "heating"; "furnace"; "boiler"; "warm"]);
   ("plumbing", ["plumb"; "water"; "leak"; "pipe"; "drain"; "toilet"]);
   ("electrical", ["electric"; "power"; "outlet"; "wiring"; "lights"])].

Definition urgency_keywords : list (string * list string) :=
  [("emergency", ["emergency"; "urgent"; "asap"; "immediately"; "broken";
                  "not working"; "dead"]);
   ("high", ["soon"; "this week"; "quickly"; "today"; "tomorrow"]);
   ("normal", ["convenient"; "schedule"; "when possible"]);
   ("low", ["whenever"; "no rush"; "flexible"])].

Definition addon_keywords : list (string * list string) :=
  [("thermostat_install", ["thermostat"; "temperature control"]);
   ("filter_replacement", ["filter"; "air filter"]);
   ("duct_cleaning", ["duct"; "air duct"]);
   ("maintenance_plan", ["maintenance"; "service plan"; "regular service"])].

(** The dictionary [analyze_request] serialises. *)
Record Analysis := mkAnalysis {
  service_type : string;
  urgency_level : string;
  additional_services : list string;
  customer_intent : string;
  requires_scheduling : bool;
  requires_pricing : bool
}.

(** [analyze_request], before [json.dumps]. *)
Definition analyze_request (customer_message : string) : Analysis :=
  let message_lower := Text.lower customer_message in
  let detected_service :=
    default "ac_repair"
      (Dict.first_match (fun keywords => Text.any_in keywords message_lower)
                        service_keywords) in
  let detected_urgency :=
    default "normal"
      (Dict.first_match (fun keywords => Text.any_in keywords message_lower)
                        urgency_keywords) in
  let additional_services :=
    map fst (List.filter (fun '(_, keywords) => Text.any_in keywords message_lower)
                         addon_keywords) in
  {| service_type := detected_service;
     urgency_level := detected_urgency;
     additional_services := additional_services;
     customer_intent := "service_request";
     requires_scheduling :=
       (Text.contains "this week" message_lower
        || Text.contains "today" message_lower
        || Text.contains "tomorrow" message_lower)%bool;
     requires_pricing :=
       (Text.contains "cost" message_lower
        || Text.contains "price" message_lower
        || Text.contains "how much" message_lower)%bool |}.

End AnalysisTool.

Module PricingTool.

(** The list the pricing tool reads off its comma-separated argument:
    [[s.strip() for s in xs.split(",") if s.strip()] if xs else []]. *)
Definition additional_list (additional_services : string) : list string :=
  if Str.nonempty additional_services
  then map Str.strip
           (List.filter (fun s => Str.nonempty (Str.strip s))
                        (Str.split "," additional_services))
  else [].

(** [calculate_price], before [json.dumps]: the breakdown of the pricing
    service for the parsed list. *)
Definition calculate_price (service_type additional_services urgency : string)
    : Pricing :=
  PricingService.calculate_pricing
    service_type (Some (additional_list additional_services)) urgency.

(** A name the tool's argument carries unchanged: not empty, without comma,
    without blanks around it, and of ASCII characters only (the string
    methods are modelled on those). *)
Definition clean (s : string) : Prop :=
  Str.nonempty s = true /\ Str.has_char "," s = false /\ Str.strip s = s
  /\ Str.is_ascii s = true.

End PricingTool.

(** * Properties *)

(** ** Pricing *)

Local Open Scope Q_scope.

Lemma fold_plus_nonneg (l : list Q) :
  Forall (Qle 0) l -> forall a, 0 <= a -> 0 <= fold_left Qplus l a.
Proof.
  induction 1 as [|x l Hx _ IH]; intros a Ha; cbn [fold_left].
  - exact Ha.
  - apply IH. lra.
Qed.

Lemma sum_nonneg (l : list Q) : Forall (Qle 0) l -> 0 <= Builtins.sum l.
Proof. intros Hl. apply (fold_plus_nonneg l Hl 0), Qle_refl. Qed.

Lemma simple_base_price_pos (service_type : string) :
  0 < Dict.get_or service_type 150 SimpleDemoPricing.base_prices.
Proof.
  unfold Dict.get_or, SimpleDemoPricing.base_prices; simpl.
  repeat (destruct (String.eqb service_type _)); reflexivity.
Qed.

Lemma simple_addon_price_nonneg (service : string) :
  0 <= Dict.get_or service 0 SimpleDemoPricing.addon_prices.
Proof.
  unfold Dict.get_or, SimpleDemoPricing.addon_prices; simpl.
  repeat (destruct (String.eqb service _)); discriminate.
Qed.

Lemma service_base_price_pos (service_type : string) :
  0 < Builtins.sum (Dict.values (Dict.get_or service_type PricingService.ac_repair_row
                                     PricingService.base_prices)).
Proof.
  unfold Dict.get_or, PricingService.base_prices; simpl.
  repeat (destruct (String.eqb service_type _)); reflexivity.
Qed.

Lemma service_addon_price_nonneg (service : string) :
  0 <= Dict.get_or service 0 PricingService.addon_prices.
Proof.
  unfold Dict.get_or, PricingService.addon_prices; simpl.
  repeat (destruct (String.eqb service _)); discriminate.
Qed.

Lemma simple_subtotal_pos service_type additional_services urgency :
  0 < subtotal (SimpleDemoPricing.calculate_pricing
                  service_type additional_services urgency).
Proof.
  simpl.
  pose proof (simple_base_price_pos service_type) as Hb.
  assert (Ha : 0 <= Builtins.sum (map (fun service =>
                 Dict.get_or service 0 SimpleDemoPricing.addon_prices)
                 additional_services)).
  { apply sum_nonneg.
    induction additional_services; constructor;
      [apply simple_addon_price_nonneg | assumption]. }
  lra.
Qed.

Lemma service_subtotal_pos service_type additional_services urgency :
  0 < subtotal (PricingService.calculate_pricing
                  service_type additional_services urgency).
Proof.
  simpl.
  pose proof (service_base_price_pos service_type) as Hb.
  assert (Ha : 0 <= Builtins.sum (map (fun service =>
                 Dict.get_or service 0 PricingService.addon_prices)
                 (priced_services additional_services))).
  { apply sum_nonneg.
    induction (priced_services additional_services);
      constructor; [apply service_addon_price_nonneg | assumption]. }
  lra.
Qed.

(** C1. Every breakdown either engine computes satisfies
    [total == subtotal - bundleDiscount - sameVisitSavings
              + urgencySurcharge + tax]
    with [subtotal == baseCost + addonCost], whatever the service type, the
    additional services and the urgency are. *)
Theorem C1_pricing_identity (service_type urgency : string) :
  (forall additional_services : list string,
      pricing_identity (SimpleDemoPricing.calculate_pricing
                          service_type additional_services urgency))
  /\ (forall additional_services : option (list string),
        pricing_identity (PricingService.calculate_pricing
                            service_type additional_services urgency)).
Proof.
  split; intros additional_services; unfold pricing_identity, same_visit_savings;
    simpl; split; ring.
Qed.

(** The tax of a breakdown is 8% of the amount before tax, and the total
    adds it to that amount. *)
Lemma tax_is_eight_percent (service_type urgency : string) :
  (forall l, let p := SimpleDemoPricing.calculate_pricing service_type l urgency in
             tax p == (8 # 100) * pre_tax p /\ total p == pre_tax p + tax p)
  /\ (forall l, let p := PricingService.calculate_pricing service_type l urgency in
                tax p == (8 # 100) * pre_tax p /\ total p == pre_tax p + tax p).
Proof.
  split; intros l; unfold pre_tax; simpl; split; ring.
Qed.

(** C5. The bundle discount is 15% of the subtotal when there are additional
    services and 0 when there are none; it is zero exactly when there are
    none. *)
Theorem C5_bundle_discount (service_type urgency : string) :
  (forall additional_services : list string,
      let p := SimpleDemoPricing.calculate_pricing
                 service_type additional_services urgency in
      bundle_discount p
        == match additional_services with
           | [] => 0
           | _ :: _ => (15 # 100) * subtotal p
           end
      /\ (~ bundle_discount p == 0 <-> additional_services <> []))
  /\ (forall additional_services : option (list string),
        let p := PricingService.calculate_pricing
                   service_type additional_services urgency in
        bundle_discount p
          == match priced_services additional_services with
             | [] => 0
             | _ :: _ => (15 # 100) * subtotal p
             end
        /\ (~ bundle_discount p == 0
            <-> priced_services additional_services <> [])).
Proof.
  split; intros additional_services p.
  - pose proof (simple_subtotal_pos service_type additional_services urgency)
      as Hpos.
    fold p in Hpos.
    assert (Hd : bundle_discount p
                 == match additional_services with
                    | [] => 0
                    | _ :: _ => (15 # 100) * subtotal p
                    end).
    { subst p. destruct additional_services; simpl; ring. }
    split; [exact Hd|].
    destruct additional_services as [|a l].
    + split; [intros H; contradiction H | intros H; contradiction H; reflexivity].
    + split; [discriminate | intros _ H]. rewrite Hd in H. lra.
  - pose proof (service_subtotal_pos service_type additional_services urgency)
      as Hpos.
    fold p in Hpos.
    assert (Hd : bundle_discount p
                 == match priced_services additional_services with
                    | [] => 0
                    | _ :: _ => (15 # 100) * subtotal p
                    end).
    { subst p. destruct additional_services as [[|a l]|]; simpl; ring. }
    split; [exact Hd|].
    destruct (priced_services additional_services) as [|a l].
    + split; [intros H; contradiction H | intros H; contradiction H; reflexivity].
    + split; [discriminate | intros _ H]. rewrite Hd in H. lra.
Qed.

(** C10. The total is not monotone in the additional services: on an
    [ac_repair] base, whatever the urgency, adding [filter_replacement]
    (price 25) lowers both the amount before tax and the final total, in
    either engine. *)
Theorem C10_total_not_monotone_in_addons (urgency : string) :
  (let without := SimpleDemoPricing.calculate_pricing "ac_repair" [] urgency in
   let added := SimpleDemoPricing.calculate_pricing
                  "ac_repair" ["filter_replacement"] urgency in
   addon_cost without < addon_cost added
   /\ pre_tax added < pre_tax without
   /\ total added < total without)
  /\ (let without := PricingService.calculate_pricing "ac_repair" (Some []) urgency in
      let added := PricingService.calculate_pricing
                     "ac_repair" (Some ["filter_replacement"]) urgency in
      addon_cost without < addon_cost added
      /\ pre_tax added < pre_tax without
      /\ total added < total without).
Proof.
  unfold pre_tax; simpl.
  generalize (Dict.get_or urgency 0 urgency_table); intros u.
  change (Dict.get_or "filter_replacement" 0 SimpleDemoPricing.addon_prices)
    with 25.
  change (Dict.get_or "filter_replacement" 0 PricingService.addon_prices)
    with 25.
  change (Dict.get_or "ac_repair" 150 SimpleDemoPricing.base_prices) with 150.
  unfold Builtins.sum; cbn [fold_left].
  repeat split; try reflexivity; lra.
Qed.

(** ** The planner *)

Lemma plan_is_selection (facts : Spec.IntentFacts) :
  Spec.plan facts = List.filter (Spec.selects facts) Spec.all_stages.
Proof. destruct facts as [[] [] [] []]; reflexivity. Qed.

Lemma chain_of_entities (primary_result : Orchestrator.AgentResult)
    (entities : gmap string Orchestrator.Value) :
  Orchestrator._determine_agent_chain primary_result entities
  = map Spec.agent_of (Spec.plan (Spec.facts_of entities)).
Proof.
  unfold Orchestrator._determine_agent_chain, Spec.plan, Spec.facts_of; simpl.
  assert (Hu : Orchestrator.among (entities !! "urgency") ["emergency"; "high"]
               = Spec.urgent
                   match entities !! "urgency" with
                   | Some (Orchestrator.VStr u) =>
                       if String.eqb u "emergency" then Spec.emergency
                       else if String.eqb u "high" then Spec.high
                       else if String.eqb u "normal" then Spec.normal
                       else if String.eqb u "low" then Spec.low
                       else Spec.unset
                   | _ => Spec.unset
                   end).
  { destruct (entities !! "urgency") as [[u|b]|]; simpl; try reflexivity.
    destruct (String.eqb u "emergency"); simpl; [reflexivity|].
    destruct (String.eqb u "high"); simpl; [reflexivity|].
    destruct (String.eqb u "normal"); simpl; [reflexivity|].
    destruct (String.eqb u "low"); reflexivity. }
  rewrite <- Hu.
  destruct (Orchestrator.truthy (entities !! "bundle_request"));
    destruct (Orchestrator.truthy (entities !! "scheduling_request"));
    destruct (Orchestrator.among (entities !! "urgency") ["emergency"; "high"]);
    destruct (Orchestrator.truthy (entities !! "pricing_request"));
    reflexivity.
Qed.

(** C2. For every intent facts the planner returns exactly the stages the
    rule table selects, in the fixed order communication, bundle, calendar,
    pricing, and none twice; the same holds of every entity dictionary, read
    as the planner reads it. *)
Theorem C2_planner_rule_table (primary_result : Orchestrator.AgentResult) :
  (forall facts : Spec.IntentFacts,
      Orchestrator._determine_agent_chain primary_result (Spec.entities_of facts)
      = map Spec.agent_of (List.filter (Spec.selects facts) Spec.all_stages)
      /\ Spec.plan facts = List.filter (Spec.selects facts) Spec.all_stages
      /\ NoDup (Orchestrator._determine_agent_chain
                  primary_result (Spec.entities_of facts)))
  /\ (forall entities : gmap string Orchestrator.Value,
        Orchestrator._determine_agent_chain primary_result entities
        = map Spec.agent_of
              (List.filter (Spec.selects (Spec.facts_of entities)) Spec.all_stages)
        /\ NoDup (Orchestrator._determine_agent_chain primary_result entities)).
Proof.
  assert (Hnd : forall facts,
             NoDup (map Spec.agent_of
                        (List.filter (Spec.selects facts) Spec.all_stages))).
  { intros [[] [] [] []]; apply (bool_decide_unpack _); vm_compute; exact I. }
  split.
  - intros facts. rewrite chain_of_entities, !plan_is_selection.
    assert (Hf : List.filter (Spec.selects (Spec.facts_of (Spec.entities_of facts)))
                        Spec.all_stages
                 = List.filter (Spec.selects facts) Spec.all_stages).
    { destruct facts as [[] [] [] []]; reflexivity. }
    rewrite Hf. split; [reflexivity | split; [reflexivity | apply Hnd]].
  - intros entities. rewrite chain_of_entities, plan_is_selection.
    split; [reflexivity | apply Hnd].
Qed.

(** ** The AC repair scenario *)

(** C3. The scenario text on the code.  Both extractors find the keyword
    [broken] in their emergency list, which they try first, so the urgency
    is [emergency], not [high]; the orchestrator's extractor sets no
    scheduling flag and its planner schedules no pricing stage; with the
    extracted urgency the pricing service charges 75 and totals 324.  On the
    facts the scenario states ([ac_repair], [high], no additional service)
    the pricing service does return 225, 25, 225, 20 and 270. *)
Theorem C3_scenario_on_the_code :
  Orchestrator._extract_entities_from_message Sample.scenario_text
  = {[ "service_type" := Orchestrator.VStr "ac_repair";
       "urgency" := Orchestrator.VStr "emergency" ]}
  /\ (forall primary_result,
         Orchestrator._determine_agent_chain primary_result
           (Orchestrator._extract_entities_from_message Sample.scenario_text)
         = ["customer_relations"; "calendar_specialist"])
  /\ SimpleDemo.analyze_customer_request Sample.scenario_text
     = {| SimpleDemo.service_type := "ac_repair";
          SimpleDemo.urgency := "emergency";
          SimpleDemo.additional_services := [];
          SimpleDemo.requires_scheduling := true;
          SimpleDemo.requires_pricing := false;
          SimpleDemo.bundle_request := false |}
  /\ (let p := PricingService.calculate_pricing "ac_repair" None "emergency" in
      base_cost p == 225 /\ urgency_surcharge p == 75 /\ subtotal p == 225
      /\ tax p == 24 /\ total p == 324)
  /\ (let p := PricingService.calculate_pricing "ac_repair" None "high" in
      base_cost p == 225 /\ urgency_surcharge p == 25 /\ subtotal p == 225
      /\ tax p == 20 /\ total p == 270).
Proof.
  split; [vm_compute; reflexivity|].
  split; [intros primary_result; vm_compute; reflexivity|].
  split; [vm_compute; reflexivity|].
  split; vm_compute; repeat split; reflexivity.
Qed.

(** ** Running the chain *)

Section ChainRuns.

Import Orchestrator.

Variable think_and_act :
  string -> WorkflowContext -> string -> Outcome AgentResult.

Lemma dict_set_fresh {V} (k : string) (v : V) (d : list (string * V)) :
  ~ In k (Dict.keys d) -> Dict.set k v d = d ++ [(k, v)].
Proof.
  induction d as [|[k' v'] d IH]; simpl; intros Hk; [reflexivity|].
  destruct (String.eqb_spec k k') as [->|Hne].
  - exfalso. apply Hk. now left.
  - f_equal. apply IH. intros Hin. apply Hk. now right.
Qed.

Lemma dict_get_entry {V} (k : string) (v : V) (d : list (string * V)) :
  NoDup (Dict.keys d) -> In (k, v) d -> Dict.get k d = Some v.
Proof.
  induction d as [|[k' v'] d IH]; simpl; intros Hnd Hin; [contradiction|].
  apply NoDup_cons in Hnd as [Hk' Hnd].
  destruct Hin as [Heq|Hin].
  - injection Heq as -> ->. now rewrite String.eqb_refl.
  - destruct (String.eqb_spec k k') as [->|Hne]; [|now apply IH].
    exfalso. apply Hk'. apply list_elem_of_In.
    change (In k' (map fst d)). apply in_map_iff. now exists (k', v).
Qed.

(** One turn of the loop adds the entry of the agent's outcome; the
    context it leaves does not depend on [chain_results]. *)
Lemma run_agent_entry (name : string) (context : WorkflowContext)
    (chain_results : list (string * AgentResult)) :
  run_agent think_and_act name (context, chain_results)
  = (fst (run_agent think_and_act name (context, [])),
     Dict.set name (entry_of (agent_outcome think_and_act name context))
              chain_results).
Proof.
  unfold run_agent, agent_outcome.
  destruct (registered name); [|reflexivity].
  destruct (think_and_act name context _); reflexivity.
Qed.

Lemma chain_outcomes_names (chain : list string) (context : WorkflowContext) :
  map fst (chain_outcomes think_and_act chain context) = chain.
Proof.
  revert context. induction chain as [|name rest IH]; intros context; simpl;
    [reflexivity | now rewrite IH].
Qed.

Lemma chain_entries_keys (outcomes : list (string * Outcome AgentResult)) :
  Dict.keys (chain_entries outcomes) = map fst outcomes.
Proof.
  unfold Dict.keys, chain_entries. rewrite map_map.
  apply map_ext. now intros [name o].
Qed.

(** A run over distinct agents, none of which has an entry yet, appends
    the entries of its outcomes, in order. *)
Lemma run_chain_entries (chain : list string) :
  NoDup chain ->
  forall (context : WorkflowContext)
         (chain_results : list (string * AgentResult)),
    (forall name, In name chain -> ~ In name (Dict.keys chain_results)) ->
    snd (run_chain think_and_act chain (context, chain_results))
    = chain_results
        ++ chain_entries (chain_outcomes think_and_act chain context).
Proof.
  unfold run_chain.
  induction chain as [|name rest IH]; intros Hnd context chain_results Hfresh;
    cbn [fold_left chain_outcomes].
  - simpl. now rewrite app_nil_r.
  - apply NoDup_cons in Hnd as [Hname Hnd].
    rewrite run_agent_entry.
    rewrite dict_set_fresh by (apply Hfresh; now left).
    rewrite IH; [now rewrite <- app_assoc | assumption |].
    intros other Hother Hin.
    unfold Dict.keys in Hin. rewrite map_app in Hin.
    apply in_app_or in Hin as [Hin|[<-|[]]].
    + apply (Hfresh other); [now right | exact Hin].
    + apply Hname. now apply list_elem_of_In.
Qed.

Lemma planned_chain_NoDup (primary_result : AgentResult)
    (entities : gmap string Value) :
  NoDup (_determine_agent_chain primary_result entities).
Proof.
  unfold _determine_agent_chain; simpl.
  destruct (truthy (entities !! "bundle_request"));
    destruct (truthy (entities !! "scheduling_request")
              || among (entities !! "urgency") ["emergency"; "high"])%bool;
    destruct (truthy (entities !! "pricing_request")); simpl;
    apply (bool_decide_unpack _); vm_compute; exact I.
Qed.

(** The results of a chain run are the entries of its outcomes. *)
Lemma executed_chain_entries (context : WorkflowContext)
    (primary_result : AgentResult) :
  snd (_execute_agent_chain think_and_act context primary_result)
  = chain_entries
      (chain_outcomes think_and_act
         (_determine_agent_chain primary_result (extracted_entities context))
         context).
Proof.
  unfold _execute_agent_chain.
  rewrite run_chain_entries; [reflexivity | apply planned_chain_NoDup |].
  intros name _ [].
Qed.

Lemma confidence_terms_entries
    (outcomes : list (string * Outcome AgentResult)) :
  omap res_confidence (Dict.values (chain_entries outcomes))
  = confidence_terms outcomes.
Proof.
  unfold confidence_terms, Dict.values, chain_entries.
  induction outcomes as [|[name o] outcomes IH]; [reflexivity|].
  unfold omap in *. simpl. rewrite IH.
  destruct o as [r|e]; reflexivity.
Qed.

(** The steps a chain run records are those of its successes. *)
Lemma run_chain_steps (chain : list string) :
  forall (context : WorkflowContext)
         (chain_results : list (string * AgentResult)),
    workflow_steps (fst (run_chain think_and_act chain (context, chain_results)))
    = workflow_steps context
        ++ recorded_steps (chain_outcomes think_and_act chain context).
Proof.
  unfold run_chain, recorded_steps.
  induction chain as [|name rest IH]; intros context chain_results;
    cbn [fold_left chain_outcomes].
  - simpl. now rewrite app_nil_r.
  - rewrite run_agent_entry, IH.
    unfold run_agent, agent_outcome, omap; simpl.
    destruct (registered name); [|reflexivity].
    destruct (think_and_act name context _); simpl;
      [now rewrite <- app_assoc | reflexivity].
Qed.

End ChainRuns.

(** C7. In a chain run every planned agent is asked, whatever happened to
    the agents before it; each success leaves the agent's result and each
    failure a record with the error text and confidence 0 in the results,
    and the response synthesized from the run carries all of them under
    [specialized_results].  [process_service_request] answers with that
    response whenever the primary analysis returns. *)
Theorem C7_failed_stage_keeps_siblings
    (think_and_act :
       string -> Orchestrator.WorkflowContext -> string
       -> Outcome Orchestrator.AgentResult)
    (rid : string) (context : Orchestrator.WorkflowContext)
    (primary_result : Orchestrator.AgentResult) :
  let chain :=
    Orchestrator._determine_agent_chain
      primary_result (Orchestrator.extracted_entities context) in
  let outcomes := Orchestrator.chain_outcomes think_and_act chain context in
  let run := Orchestrator._execute_agent_chain think_and_act context primary_result in
  let response :=
    Orchestrator._synthesize_response rid (fst run) primary_result (snd run) in
  map fst outcomes = chain
  /\ Orchestrator.specialized_results_of (Orchestrator.result response)
     = Some (Orchestrator.chain_entries outcomes)
  /\ (forall name r,
         In (name, Returned r) outcomes ->
         Dict.get name (Orchestrator.chain_entries outcomes) = Some r)
  /\ (forall name e,
         In (name, Raised e) outcomes ->
         Dict.get name (Orchestrator.chain_entries outcomes)
         = Some (Orchestrator.failure_record (exn_str e))
         /\ Orchestrator.res_confidence (Orchestrator.failure_record (exn_str e))
            = Some 0)
  /\ (forall self request,
         Orchestrator._execute_primary_analysis think_and_act
           (Orchestrator._initialize_workflow_context rid request)
         = Returned (context, primary_result) ->
         snd (Orchestrator.process_service_request think_and_act self rid request)
         = response).
Proof.
  intros chain outcomes run response.
  assert (Hnames : map fst outcomes = chain)
    by apply chain_outcomes_names.
  assert (Hkeys : NoDup (Dict.keys (Orchestrator.chain_entries outcomes))).
  { rewrite chain_entries_keys, Hnames. apply planned_chain_NoDup. }
  assert (Hget : forall name o,
             In (name, o) outcomes ->
             Dict.get name (Orchestrator.chain_entries outcomes)
             = Some (Orchestrator.entry_of o)).
  { intros name o Hin. apply dict_get_entry; [exact Hkeys|].
    unfold Orchestrator.chain_entries. apply in_map_iff. now exists (name, o). }
  split; [exact Hnames|]. split.
  - subst response run. simpl. f_equal. apply executed_chain_entries.
  - split; [intros name r Hin; exact (Hget _ _ Hin)|].
    split; [intros name e Hin; split; [exact (Hget _ _ Hin) | reflexivity]|].
    intros self request Hprimary.
    unfold Orchestrator.process_service_request. rewrite Hprimary.
    subst response run.
    destruct (Orchestrator._execute_agent_chain think_and_act context primary_result);
      reflexivity.
Qed.

(** C4, as the code has it.  The overall confidence is the mean of the
    primary analysis' confidence (0.7 when it carries none) and of one term
    per chain result that carries a confidence; a failed stage is such a
    result, and its term is 0. *)
Theorem C4_confidence_counts_failed_stages
    (think_and_act :
       string -> Orchestrator.WorkflowContext -> string
       -> Outcome Orchestrator.AgentResult)
    (rid : string) (context : Orchestrator.WorkflowContext)
    (primary_result : Orchestrator.AgentResult) :
  let chain :=
    Orchestrator._determine_agent_chain
      primary_result (Orchestrator.extracted_entities context) in
  let outcomes := Orchestrator.chain_outcomes think_and_act chain context in
  let run := Orchestrator._execute_agent_chain think_and_act context primary_result in
  let response :=
    Orchestrator._synthesize_response rid (fst run) primary_result (snd run) in
  Orchestrator.confidence response
  == Spec.mean (Orchestrator.confidence_or (7 # 10) primary_result
                  :: Orchestrator.confidence_terms outcomes)
  /\ (forall before name e after,
         Orchestrator.confidence_terms (before ++ (name, Raised e) :: after)
         = Orchestrator.confidence_terms before
             ++ 0 :: Orchestrator.confidence_terms after).
Proof.
  intros chain outcomes run response. split.
  - subst response run. simpl.
    unfold Orchestrator.confidences.
    rewrite executed_chain_entries, confidence_terms_entries.
    reflexivity.
  - intros before name e after.
    unfold Orchestrator.confidence_terms. now rewrite omap_app.
Qed.

(** C4, as stated, fails.  With the calendar specialist down and every other
    agent at confidence 0.9, a request for a repair [soon] runs the customer
    relations agent and the calendar specialist; the response has
    confidence 0.6, while the mean over the successful stages is 0.9, with
    or without the primary analysis. *)
Lemma C4_failed_stage_lowers_confidence :
  let primary_result := Sample.result_with (9 # 10) in
  let chain :=
    Orchestrator._determine_agent_chain
      primary_result (Orchestrator.extracted_entities Sample.soon_context) in
  let outcomes :=
    Orchestrator.chain_outcomes Sample.calendar_down chain Sample.soon_context in
  let run :=
    Orchestrator._execute_agent_chain
      Sample.calendar_down Sample.soon_context primary_result in
  let response :=
    Orchestrator._synthesize_response "req-1" (fst run) primary_result (snd run) in
  chain = ["customer_relations"; "calendar_specialist"]
  /\ Spec.has_failure outcomes = true
  /\ Orchestrator.confidence response == 6 # 10
  /\ Spec.mean (Spec.successful_confidences outcomes) == 9 # 10
  /\ ~ Orchestrator.confidence response
       == Spec.mean (Spec.successful_confidences outcomes)
  /\ ~ Orchestrator.confidence response
       == Spec.mean (Orchestrator.confidence_or (7 # 10) primary_result
                       :: Spec.successful_confidences outcomes).
Proof.
  vm_compute. repeat split; try reflexivity; discriminate.
Qed.

(** A whole request with the calendar specialist down: the response keeps
    the customer relations result next to the failure record, and the stored
    workflow has the two steps of the agents that answered. *)
Example process_with_calendar_down :
  let run :=
    Orchestrator.process_service_request
      Sample.calendar_down Sample.empty_state "req-1" Sample.soon_request in
  Orchestrator.specialized_results_of (Orchestrator.result (snd run))
  = Some [("customer_relations", Sample.result_with (9 # 10));
          ("calendar_specialist",
           Orchestrator.failure_record "calendar service timed out")]
  /\ Orchestrator.actions_taken (snd run)
     = ["primary_analysis"; "customer_relations_processing";
        "calendar_specialist_processing"]
  /\ Orchestrator.confidence (snd run) == 6 # 10
  /\ (Orchestrator.ws_total_steps
        <$> Orchestrator.get_workflow_status (fst run) "req-1") = Some 2%nat
  /\ (Orchestrator.ws_status
        <$> Orchestrator.get_workflow_status (fst run) "req-1")
     = Some "completed".
Proof. vm_compute. repeat split; reflexivity. Qed.

(** ** Follow-ups *)

Lemma list_set_spec (xs : list string) :
  NoDup (SimpleDemo.list_set xs)
  /\ forall x, In x (SimpleDemo.list_set xs) <-> In x xs.
Proof.
  unfold SimpleDemo.list_set. split; [apply NoDup_elements|].
  intros x. rewrite <- !list_elem_of_In, elem_of_elements, elem_of_list_to_set.
  reflexivity.
Qed.

(** Re-extraction into a conversation state overlays the stored entities:
    what the scans find in the text wins, everything else is kept. *)
Lemma set_found_union (k : string) (found : option string)
    (fresh base : gmap string Orchestrator.Value) :
  Orchestrator.set_found k found (fresh ∪ base)
  = Orchestrator.set_found k found fresh ∪ base.
Proof. destruct found; [apply insert_union_l|reflexivity]. Qed.

Lemma set_flag_union (k : string) (flag : bool)
    (fresh base : gmap string Orchestrator.Value) :
  Orchestrator.set_flag k flag (fresh ∪ base)
  = Orchestrator.set_flag k flag fresh ∪ base.
Proof. destruct flag; [apply insert_union_l|reflexivity]. Qed.

Lemma update_entities_overlay (content : string)
    (entities : gmap string Orchestrator.Value) :
  Orchestrator.Prompt._update_entities_from_message content entities
  = Orchestrator.Prompt._update_entities_from_message content ∅ ∪ entities.
Proof.
  unfold Orchestrator.Prompt._update_entities_from_message.
  cbv zeta.
  rewrite <- !set_found_union, <- set_flag_union, <- !set_found_union.
  now rewrite (left_id_L ∅ (∪)).
Qed.

Lemma update_entities_lookup (content : string)
    (entities : gmap string Orchestrator.Value) (k : string) :
  Orchestrator.Prompt._update_entities_from_message content entities !! k
  = match Orchestrator.Prompt._update_entities_from_message content ∅ !! k with
    | Some v => Some v
    | None => entities !! k
    end.
Proof.
  rewrite update_entities_overlay, lookup_union.
  destruct (_ !! k), (entities !! k); reflexivity.
Qed.

Lemma update_entities_keys (content : string) (k : string) :
  is_Some (Orchestrator.Prompt._update_entities_from_message content ∅ !! k) ->
  In k ["service_type"; "urgency"; "bundle_request"; "location_type"].
Proof.
  intros [v Hv].
  destruct (decide (k = "service_type")) as [->|H1]; [now left|].
  destruct (decide (k = "urgency")) as [->|H2]; [now right; left|].
  destruct (decide (k = "bundle_request")) as [->|H3];
    [now right; right; left|].
  destruct (decide (k = "location_type")) as [->|H4];
    [now right; right; right; left|].
  exfalso. revert Hv.
  unfold Orchestrator.Prompt._update_entities_from_message,
    Orchestrator.set_found, Orchestrator.set_flag.
  cbv zeta.
  repeat match goal with
         | |- context [match ?x with Some _ => _ | None => _ end] =>
             destruct x
         | |- context [if ?b then _ else _] => destruct b
         end;
    rewrite ?lookup_insert_ne by congruence;
    rewrite lookup_empty; discriminate.
Qed.

(** C6, as the code has it.  [SimpleAgentDemo.handle_followup] analyses the
    follow-up text afresh; when the text has one of the bundle keywords the
    stored additional services become the duplicate-free union of the stored
    and the newly extracted ones, otherwise they stay as they were; either
    way nothing stored is lost, other sessions are untouched and an unknown
    request changes nothing.  [AgentOrchestrator.handle_followup_request]
    leaves the extracted entities of the stored workflow context as they
    were; through [ConversationState.add_message] it re-extracts the service
    type, the urgency, the bundle flag and the location type from the
    follow-up text into the stored conversation state, where a re-extracted
    key overwrites the stored value and every other key is kept.  No set of
    additional services is extracted or merged there. *)
Theorem C6_followup_merges_on_bundle_keywords
    (active_sessions : gmap string SimpleDemo.Session)
    (request_id followup_message : string) :
  let after :=
    fst (SimpleDemo.handle_followup active_sessions request_id followup_message) in
  let followup_analysis := SimpleDemo.analyze_customer_request followup_message in
  match active_sessions !! request_id with
  | None => after = active_sessions
  | Some session =>
      let stored := SimpleDemo.additional_services (SimpleDemo.analysis session) in
      let extracted := SimpleDemo.additional_services followup_analysis in
      exists merged,
        SimpleDemo.stored_services after request_id = Some merged
        /\ (if SimpleDemo.bundle_request followup_analysis
            then NoDup merged /\ Spec.is_union stored extracted merged
            else merged = stored)
        /\ (forall x, In x stored -> In x merged)
        /\ (forall other, other <> request_id ->
                          after !! other = active_sessions !! other)
  end
  /\ (forall think_and_act self followup,
         let rid := Orchestrator.followup_request_id followup in
         let handled :=
           fst (Orchestrator.handle_followup_request
                  think_and_act self followup) in
         let fresh :=
           Orchestrator.Prompt._update_entities_from_message
             (Orchestrator.followup_text followup) ∅ in
         match Orchestrator.active_workflows self !! rid,
               Orchestrator.conversation_states self !! rid with
         | Some context, Some conversation =>
             exists context' conversation',
               Orchestrator.active_workflows handled !! rid = Some context'
               /\ Orchestrator.extracted_entities context'
                  = Orchestrator.extracted_entities context
               /\ Orchestrator.conversation_states handled !! rid
                  = Some conversation'
               /\ (forall k,
                      Orchestrator.Prompt.extracted_entities conversation' !! k
                      = match fresh !! k with
                        | Some v => Some v
                        | None =>
                            Orchestrator.Prompt.extracted_entities conversation
                              !! k
                        end)
               /\ (forall k, is_Some (fresh !! k) ->
                             In k ["service_type"; "urgency"; "bundle_request";
                                   "location_type"])
         | _, _ => handled = self
         end).
Proof.
  intros after followup_analysis. split.
  - subst after followup_analysis. unfold SimpleDemo.handle_followup.
    destruct (active_sessions !! request_id) as [session|] eqn:Hlookup;
      [|reflexivity].
    lazy beta iota zeta.
    set (stored := SimpleDemo.additional_services (SimpleDemo.analysis session)).
    set (extracted :=
           SimpleDemo.additional_services
             (SimpleDemo.analyze_customer_request followup_message)).
    destruct (SimpleDemo.bundle_request
                (SimpleDemo.analyze_customer_request followup_message)).
    + exists (SimpleDemo.list_set (stored ++ extracted)).
      unfold SimpleDemo.stored_services; cbn [fst].
      rewrite lookup_insert_eq.
      destruct (list_set_spec (stored ++ extracted)) as [Hnd Hin].
      split; [reflexivity|]. split; [split; [exact Hnd|]|split].
      * intros x. rewrite Hin. apply in_app_iff.
      * intros x Hx. apply Hin, in_app_iff. now left.
      * intros other Hne. now rewrite lookup_insert_ne.
    + exists stored.
      unfold SimpleDemo.stored_services; cbn [fst].
      rewrite lookup_insert_eq.
      split; [reflexivity|]. split; [reflexivity|]. split; [tauto|].
      intros other Hne. now rewrite lookup_insert_ne.
  - intros think_and_act self followup rid handled fresh.
    subst rid handled fresh.
    unfold Orchestrator.handle_followup_request.
    destruct (Orchestrator.active_workflows self !! _) as [context|];
      [|reflexivity].
    destruct (Orchestrator.conversation_states self !! _) as [conversation|];
      [|reflexivity].
    destruct (think_and_act _ _ _);
      cbn [fst Orchestrator.active_workflows Orchestrator.conversation_states];
      rewrite !lookup_insert_eq;
      (eexists; eexists; split; [reflexivity|]; split; [reflexivity|];
       split; [reflexivity|]; split;
       [intros k; cbn [Orchestrator.Prompt.add_message
                         Orchestrator.Prompt.extracted_entities];
        change (String.eqb "user" "user") with true; cbv iota;
        apply update_entities_lookup
       |intros k; apply update_entities_keys]).
Qed.

(** C6, as stated, fails.  A follow-up that names a thermostat without a
    bundle keyword extracts [thermostat_install], but the stored services
    stay empty: they are not the union. *)
Lemma C6_followup_without_bundle_keyword_is_not_merged :
  let text := "I need a thermostat" in
  let after := fst (SimpleDemo.handle_followup Sample.one_session "req_1" text) in
  SimpleDemo.stored_services Sample.one_session "req_1" = Some []
  /\ SimpleDemo.additional_services (SimpleDemo.analyze_customer_request text)
     = ["thermostat_install"]
  /\ SimpleDemo.stored_services after "req_1" = Some []
  /\ ~ Spec.is_union [] ["thermostat_install"] [].
Proof.
  split; [vm_compute; reflexivity|].
  split; [vm_compute; reflexivity|].
  split; [vm_compute; reflexivity|].
  intros Hunion.
  apply (Hunion "thermostat_install"). right. now left.
Qed.

(** C8, as the code has it.  For a request id the store does not hold,
    [handle_followup_request] raises [ValueError] to its caller and changes
    nothing; for a stored one it raises nothing, a failure behind the lookup
    being answered by the follow-up error handler.  The demo's
    [handle_followup] answers an unknown id with its error value. *)
Theorem C8_unknown_followup_raises
    (think_and_act :
       string -> Orchestrator.WorkflowContext -> string
       -> Outcome Orchestrator.AgentResult)
    (self : Orchestrator.State) (followup : Orchestrator.FollowUpRequest) :
  match Orchestrator.active_workflows self
        !! Orchestrator.followup_request_id followup with
  | None =>
      Orchestrator.handle_followup_request think_and_act self followup
      = (self,
         Raised (ValueError
                   ("Workflow " ++ Orchestrator.followup_request_id followup
                      ++ " not found")%string))
  | Some _ =>
      exists response,
        snd (Orchestrator.handle_followup_request think_and_act self followup)
        = Returned response
  end
  /\ (forall (active_sessions : gmap string SimpleDemo.Session)
             (request_id followup_message : string),
         match active_sessions !! request_id with
         | None =>
             SimpleDemo.handle_followup active_sessions request_id followup_message
             = (active_sessions, SimpleDemo.SessionNotFound)
         | Some _ =>
             snd (SimpleDemo.handle_followup
                    active_sessions request_id followup_message)
             <> SimpleDemo.SessionNotFound
         end).
Proof.
  split.
  - unfold Orchestrator.handle_followup_request.
    destruct (Orchestrator.active_workflows self !! _); [|reflexivity].
    destruct (Orchestrator.conversation_states self !! _);
      [|eexists; reflexivity].
    destruct (think_and_act _ _ _); eexists; reflexivity.
  - intros active_sessions request_id followup_message.
    unfold SimpleDemo.handle_followup.
    destruct (active_sessions !! request_id); [|reflexivity].
    destruct (SimpleDemo.bundle_request _); discriminate.
Qed.

(** C8, as stated, fails.  On an empty store the follow-up for [req-404]
    ends in a [ValueError] that reaches the caller: no response is
    returned. *)
Lemma C8_unknown_followup_escapes :
  Orchestrator.active_workflows Sample.empty_state !! "req-404" = None
  /\ snd (Orchestrator.handle_followup_request
            Sample.calendar_down Sample.empty_state Sample.unknown_followup)
     = Raised (ValueError "Workflow req-404 not found")
  /\ ~ exists response,
         snd (Orchestrator.handle_followup_request
                Sample.calendar_down Sample.empty_state Sample.unknown_followup)
         = Returned response.
Proof.
  split; [reflexivity|]. split; [reflexivity|].
  intros [response Hresponse]. discriminate Hresponse.
Qed.

(** ** Workflow status *)

(** C9. For a request id with no stored workflow [get_workflow_status]
    returns [None], and no report; for a stored one it reports the stored
    status, the current step, the number of recorded steps and the error
    message. *)
Theorem C9_status_of_stored_workflows
    (self : Orchestrator.State) (rid : string) :
  match Orchestrator.active_workflows self !! rid with
  | None => Orchestrator.get_workflow_status self rid = None
  | Some context =>
      exists report,
        Orchestrator.get_workflow_status self rid = Some report
        /\ Orchestrator.ws_request_id report = rid
        /\ Orchestrator.ws_status report = Orchestrator.status context
        /\ Orchestrator.ws_current_step report = Orchestrator.current_step context
        /\ Orchestrator.ws_total_steps report
           = length (Orchestrator.workflow_steps context)
        /\ Orchestrator.ws_error_message report
           = Orchestrator.error_message context
  end.
Proof.
  unfold Orchestrator.get_workflow_status.
  destruct (Orchestrator.active_workflows self !! rid) as [context|];
    [|reflexivity].
  eexists. split; [reflexivity|]. repeat split.
Qed.

(** What a status query reports after [process_service_request]: a
    completed workflow with one step for the primary analysis and one per
    successful stage, or, when the primary analysis raised, the workflow as
    it was initialised. *)
Lemma status_after_processing
    (think_and_act :
       string -> Orchestrator.WorkflowContext -> string
       -> Outcome Orchestrator.AgentResult)
    (self : Orchestrator.State) (rid : string)
    (request : Orchestrator.ServiceRequest) :
  let after :=
    fst (Orchestrator.process_service_request think_and_act self rid request) in
  match Orchestrator._execute_primary_analysis think_and_act
          (Orchestrator._initialize_workflow_context rid request) with
  | Returned (context, primary_result) =>
      exists report,
        Orchestrator.get_workflow_status after rid = Some report
        /\ Orchestrator.ws_status report = "completed"
        /\ Orchestrator.ws_total_steps report
           = S (length
                  (Orchestrator.recorded_steps
                     (Orchestrator.chain_outcomes think_and_act
                        (Orchestrator._determine_agent_chain primary_result
                           (Orchestrator.extracted_entities context))
                        context)))
  | Raised _ =>
      exists report,
        Orchestrator.get_workflow_status after rid = Some report
        /\ Orchestrator.ws_status report = "initializing"
        /\ Orchestrator.ws_total_steps report = 0%nat
  end.
Proof.
  intros after. subst after.
  unfold Orchestrator.process_service_request.
  destruct (Orchestrator._execute_primary_analysis think_and_act _)
    as [[context primary_result]|e] eqn:Hprimary.
  - pose proof (run_chain_steps think_and_act
                  (Orchestrator._determine_agent_chain primary_result
                     (Orchestrator.extracted_entities context))
                  context []) as Hsteps.
    fold (Orchestrator._execute_agent_chain think_and_act context primary_result)
      in Hsteps.
    destruct (Orchestrator._execute_agent_chain think_and_act context primary_result)
      as [context' chain_result].
    unfold Orchestrator.get_workflow_status.
    cbn [fst Orchestrator.active_workflows]. rewrite lookup_insert_eq.
    eexists. split; [reflexivity|]. split; [reflexivity|].
    cbn [Orchestrator.ws_total_steps Orchestrator.set_status
         Orchestrator.workflow_steps fst] in *.
    rewrite Hsteps, length_app.
    unfold Orchestrator._execute_primary_analysis in Hprimary.
    destruct (think_and_act _ _ _); [|discriminate].
    injection Hprimary as <- <-. reflexivity.
  - unfold Orchestrator.get_workflow_status.
    cbn [fst Orchestrator.active_workflows]. rewrite lookup_insert_eq.
    eexists. split; [reflexivity|]. split; reflexivity.
Qed.

(** * Further properties of the code *)

(** ** Pricing: order of the additional services, unknown names, bounds *)

Lemma fold_plus_acc (l : list Q) (a : Q) :
  fold_left Qplus l a == a + fold_left Qplus l 0.
Proof.
  revert a. induction l as [|x l IH]; intros a; cbn [fold_left].
  - ring.
  - rewrite (IH (a + x)), (IH (0 + x)). ring.
Qed.

Lemma sum_cons (x : Q) (l : list Q) :
  Builtins.sum (x :: l) == x + Builtins.sum l.
Proof.
  unfold Builtins.sum; cbn [fold_left]. rewrite fold_plus_acc. ring.
Qed.

Lemma sum_perm (l l' : list Q) :
  Permutation l l' -> Builtins.sum l == Builtins.sum l'.
Proof.
  induction 1 as [|x l l' _ IH|x y l|l l' l'' _ IH1 _ IH2].
  - reflexivity.
  - rewrite !sum_cons, IH. reflexivity.
  - rewrite !sum_cons. ring.
  - rewrite IH1. exact IH2.
Qed.

Lemma urgency_surcharge_nonneg (urgency : string) :
  0 <= Dict.get_or urgency 0 urgency_table.
Proof.
  unfold Dict.get_or, urgency_table; simpl.
  repeat (destruct (String.eqb urgency _)); discriminate.
Qed.

(** X1. The breakdown does not depend on the order in which the additional
    services are listed: two lists that are permutations of each other are
    priced alike, key by key, by either engine. *)
Theorem X1_pricing_ignores_addon_order
    (service_type urgency : string) (l l' : list string)
    (Hperm : Permutation l l') :
  pricing_eq (SimpleDemoPricing.calculate_pricing service_type l urgency)
             (SimpleDemoPricing.calculate_pricing service_type l' urgency)
  /\ pricing_eq (PricingService.calculate_pricing service_type (Some l) urgency)
                (PricingService.calculate_pricing service_type (Some l') urgency).
Proof.
  assert (Hsum : forall table : list (string * Q),
             Builtins.sum (map (fun service => Dict.get_or service 0 table) l)
             == Builtins.sum (map (fun service => Dict.get_or service 0 table) l')).
  { intros table. apply sum_perm. now apply Permutation_map. }
  assert (Hrate : match l with [] => 0 | _ :: _ => 15 # 100 end
                  == match l' with [] => 0 | _ :: _ => 15 # 100 end).
  { destruct l as [|a l].
    - apply Permutation_nil in Hperm as ->. reflexivity.
    - destruct l' as [|a' l']; [|reflexivity].
      symmetry in Hperm. now apply Permutation_nil in Hperm. }
  split; unfold pricing_eq; cbn -[Builtins.sum Dict.get_or];
    rewrite ?(Hsum SimpleDemoPricing.addon_prices),
            ?(Hsum PricingService.addon_prices);
    repeat split; try reflexivity.
  all: try (rewrite Hrate; reflexivity).
Qed.

Lemma X1_pricing_ignores_addon_order_witness :
  pricing_eq
    (SimpleDemoPricing.calculate_pricing
       "heating" ["thermostat_install"; "duct_cleaning"] "high")
    (SimpleDemoPricing.calculate_pricing
       "heating" ["duct_cleaning"; "thermostat_install"] "high")
  /\ pricing_eq
       (PricingService.calculate_pricing
          "heating" (Some ["thermostat_install"; "duct_cleaning"]) "high")
       (PricingService.calculate_pricing
          "heating" (Some ["duct_cleaning"; "thermostat_install"]) "high").
Proof.
  apply (X1_pricing_ignores_addon_order "heating" "high"
           ["thermostat_install"; "duct_cleaning"]
           ["duct_cleaning"; "thermostat_install"]).
  apply perm_swap.
Defined.

Lemma get_or_unknown {V} (k : string) (dflt : V) (d : list (string * V)) :
  Dict.get k d = None -> Dict.get_or k dflt d = dflt.
Proof. unfold Dict.get_or. now intros ->. Qed.

Lemma unknown_to_simple (addon : string) :
  Dict.get addon PricingService.addon_prices = None ->
  Dict.get addon SimpleDemoPricing.addon_prices = None.
Proof.
  unfold PricingService.addon_prices, SimpleDemoPricing.addon_prices; simpl.
  repeat (destruct (String.eqb addon _)); try discriminate; reflexivity.
Qed.

(** X2. An additional service that is in no price table costs nothing and
    still earns the bundle discount: listing it alone lowers the total below
    that of the bare service, in either engine. *)
Theorem X2_unknown_addon_lowers_total
    (service_type urgency addon : string)
    (Hunknown : Dict.get addon PricingService.addon_prices = None) :
  (let bare := SimpleDemoPricing.calculate_pricing service_type [] urgency in
   let listed := SimpleDemoPricing.calculate_pricing service_type [addon] urgency in
   addon_cost listed == 0
   /\ bundle_discount listed == (15 # 100) * base_cost bare
   /\ total listed < total bare)
  /\ (let bare := PricingService.calculate_pricing service_type None urgency in
      let listed :=
        PricingService.calculate_pricing service_type (Some [addon]) urgency in
      addon_cost listed == 0
      /\ bundle_discount listed == (15 # 100) * base_cost bare
      /\ total listed < total bare).
Proof.
  pose proof (unknown_to_simple addon Hunknown) as Hsimple.
  pose proof (simple_base_price_pos service_type) as Hb1.
  pose proof (service_base_price_pos service_type) as Hb2.
  pose proof (urgency_surcharge_nonneg urgency) as Hu.
  split; cbn -[Builtins.sum Dict.get_or].
  - rewrite (get_or_unknown addon 0 _ Hsimple).
    unfold Builtins.sum; cbn [fold_left].
    repeat split; try ring. lra.
  - rewrite (get_or_unknown addon 0 _ Hunknown).
    set (b := Builtins.sum (Dict.values _)) in *.
    unfold Builtins.sum; cbn [fold_left].
    repeat split; try ring. lra.
Qed.

Lemma X2_unknown_addon_lowers_total_witness :
  Dict.get "gutter_cleaning" PricingService.addon_prices = None
  /\ total (PricingService.calculate_pricing
              "plumbing" (Some ["gutter_cleaning"]) "normal")
     < total (PricingService.calculate_pricing "plumbing" None "normal").
Proof.
  split; [reflexivity|].
  apply (X2_unknown_addon_lowers_total "plumbing" "normal" "gutter_cleaning").
  reflexivity.
Defined.

(** X3. The urgency moves the total by fixed amounts: an emergency costs 81
    more, and a high urgency 27 more, than any urgency the surcharge table
    does not list (the surcharge of 75 or 25 plus its 8% tax), whatever the
    service and the additional services are. *)
Theorem X3_urgency_moves_total_by_fixed_amounts
    (service_type urgency : string)
    (Hunlisted : Dict.get urgency urgency_table = None) :
  (forall l : list string,
      total (SimpleDemoPricing.calculate_pricing service_type l "emergency")
      == total (SimpleDemoPricing.calculate_pricing service_type l urgency) + 81
      /\ total (SimpleDemoPricing.calculate_pricing service_type l "high")
         == total (SimpleDemoPricing.calculate_pricing service_type l urgency) + 27)
  /\ (forall l : option (list string),
        total (PricingService.calculate_pricing service_type l "emergency")
        == total (PricingService.calculate_pricing service_type l urgency) + 81
        /\ total (PricingService.calculate_pricing service_type l "high")
           == total (PricingService.calculate_pricing service_type l urgency) + 27).
Proof.
  split; intros l; cbn -[Builtins.sum Dict.get_or];
    rewrite (get_or_unknown urgency 0 _ Hunlisted);
    change (Dict.get_or "emergency" 0 urgency_table) with 75;
    change (Dict.get_or "high" 0 urgency_table) with 25;
    split; ring.
Qed.

Lemma X3_urgency_moves_total_by_fixed_amounts_witness :
  Dict.get "low" urgency_table = None
  /\ total (PricingService.calculate_pricing "heating" None "emergency")
     == total (PricingService.calculate_pricing "heating" None "low") + 81.
Proof.
  split; [reflexivity|].
  apply (X3_urgency_moves_total_by_fixed_amounts "heating" "low"). reflexivity.
Defined.







(** ** The orchestrator: counters, stored contexts, follow-ups *)

(** X5. Every request is counted once and ends in exactly one of the two
    tallies: [process_service_request] adds one to [total_requests] and one
    to the sum of [successful_completions] and [error_count], so that
    [successful_completions + error_count = total_requests] is kept; a
    follow-up touches no counter. *)
Theorem X5_requests_are_tallied_once
    (think_and_act :
       string -> Orchestrator.WorkflowContext -> string
       -> Outcome Orchestrator.AgentResult)
    (self : Orchestrator.State) (rid : string)
    (request : Orchestrator.ServiceRequest) :
  let before := Orchestrator.performance_metrics self in
  let after :=
    Orchestrator.performance_metrics
      (fst (Orchestrator.process_service_request think_and_act self rid request)) in
  Orchestrator.total_requests after = S (Orchestrator.total_requests before)
  /\ (Orchestrator.successful_completions after + Orchestrator.error_count after
      = S (Orchestrator.successful_completions before
           + Orchestrator.error_count before))%nat
  /\ (Orchestrator.successful_completions before <= Orchestrator.successful_completions after)%nat
  /\ (Orchestrator.error_count before <= Orchestrator.error_count after)%nat
  /\ (forall followup,
         Orchestrator.performance_metrics
           (fst (Orchestrator.handle_followup_request think_and_act self followup))
         = before).
Proof.
  intros before after. subst before after.
  unfold Orchestrator.process_service_request.
  destruct (Orchestrator._execute_primary_analysis think_and_act _)
    as [[context primary_result]|e].
  - destruct (Orchestrator._execute_agent_chain think_and_act context primary_result).
    cbn. repeat split; try lia.
    intros followup. unfold Orchestrator.handle_followup_request.
    destruct (Orchestrator.active_workflows self !! _); [|reflexivity].
    destruct (Orchestrator.conversation_states self !! _); [|reflexivity].
    destruct (think_and_act _ _ _); reflexivity.
  - cbn. repeat split; try lia.
    intros followup. unfold Orchestrator.handle_followup_request.
    destruct (Orchestrator.active_workflows self !! _); [|reflexivity].
    destruct (Orchestrator.conversation_states self !! _); [|reflexivity].
    destruct (think_and_act _ _ _); reflexivity.
Qed.

Section ChainInvariants.

Import Orchestrator.

Variable think_and_act :
  string -> WorkflowContext -> string -> Outcome AgentResult.

(** One turn of the loop leaves everything but the steps and their counter
    as it was, and moves the counter with the steps. *)
Lemma run_agent_frame (name : string) (context : WorkflowContext)
    (chain_results : list (string * AgentResult)) :
  let context' := fst (run_agent think_and_act name (context, chain_results)) in
  ctx_request_id context' = ctx_request_id context
  /\ customer_message context' = customer_message context
  /\ extracted_entities context' = extracted_entities context
  /\ conversation_history context' = conversation_history context
  /\ status context' = status context
  /\ error_message context' = error_message context
  /\ (current_step context' + length (workflow_steps context)
      = current_step context + length (workflow_steps context'))%nat.
Proof.
  unfold run_agent.
  destruct (registered name); [|cbn; repeat split; lia].
  destruct (think_and_act name context _); cbn; repeat split; try lia.
  rewrite length_app. cbn. lia.
Qed.

Lemma run_chain_frame (chain : list string) :
  forall (context : WorkflowContext)
         (chain_results : list (string * AgentResult)),
    let context' := fst (run_chain think_and_act chain (context, chain_results)) in
    ctx_request_id context' = ctx_request_id context
    /\ customer_message context' = customer_message context
    /\ extracted_entities context' = extracted_entities context
    /\ conversation_history context' = conversation_history context
    /\ status context' = status context
    /\ error_message context' = error_message context
    /\ (current_step context' + length (workflow_steps context)
        = current_step context + length (workflow_steps context'))%nat.
Proof.
  unfold run_chain.
  induction chain as [|name rest IH]; intros context chain_results;
    cbn [fold_left].
  - cbn. repeat split; lia.
  - pose proof (run_agent_frame name context chain_results) as Hone.
    destruct (run_agent think_and_act name (context, chain_results))
      as [context1 results1].
    specialize (IH context1 results1). cbn [fst] in Hone.
    cbv zeta in *.
    destruct Hone as (H1 & H2 & H3 & H4 & H5 & H6 & H7).
    destruct IH as (I1 & I2 & I3 & I4 & I5 & I6 & I7).
    repeat split; try congruence. lia.
Qed.

End ChainInvariants.

(** X6. The workflow a request leaves in the store.  Whatever the agents
    do, [process_service_request] stores under the request id a context
    with the customer's message, the entities extracted from it, a history
    of that one message, and a step counter equal to the number of recorded
    steps; its status is [completed], or, when the primary analysis raised,
    still [initializing] with no step at all.  The stored context never
    carries an error message; the conversation state stored with it holds
    that one message and the entities its own scans find in it; no other
    workflow or conversation state is touched. *)
Theorem X6_processed_workflow_is_consistent
    (think_and_act :
       string -> Orchestrator.WorkflowContext -> string
       -> Outcome Orchestrator.AgentResult)
    (self : Orchestrator.State) (rid : string)
    (request : Orchestrator.ServiceRequest) :
  let after :=
    fst (Orchestrator.process_service_request think_and_act self rid request) in
  (exists context,
      Orchestrator.active_workflows after !! rid = Some context
      /\ Orchestrator.ctx_request_id context = rid
      /\ Orchestrator.customer_message context = Orchestrator.message request
      /\ Orchestrator.extracted_entities context
         = Orchestrator._extract_entities_from_message
             (Orchestrator.message request)
      /\ Orchestrator.conversation_history context
         = [("user", Orchestrator.message request)]
      /\ Orchestrator.current_step context
         = length (Orchestrator.workflow_steps context)
      /\ Orchestrator.error_message context = None
      /\ (Orchestrator.status context = "completed"
          \/ Orchestrator.status context = "initializing"
             /\ Orchestrator.workflow_steps context = []))
  /\ (Orchestrator.Prompt.messages
        <$> Orchestrator.conversation_states after !! rid)
     = Some [("user", Orchestrator.message request)]
  /\ (Orchestrator.Prompt.extracted_entities
        <$> Orchestrator.conversation_states after !! rid)
     = Some (Orchestrator.Prompt._update_entities_from_message
               (Orchestrator.message request) ∅)
  /\ (forall other, other <> rid ->
        Orchestrator.active_workflows after !! other
        = Orchestrator.active_workflows self !! other
        /\ Orchestrator.conversation_states after !! other
           = Orchestrator.conversation_states self !! other).
Proof.
  intros after. subst after.
  unfold Orchestrator.process_service_request.
  destruct (Orchestrator._execute_primary_analysis think_and_act _)
    as [[context primary_result]|e] eqn:Hprimary.
  - unfold Orchestrator._execute_primary_analysis in Hprimary.
    destruct (think_and_act _ _ _) as [r|]; [|discriminate].
    injection Hprimary as <- <-.
    unfold Orchestrator._execute_agent_chain.
    match goal with
    | |- context [Orchestrator.run_chain think_and_act ?chain (?c, ?r)] =>
        pose proof (run_chain_frame think_and_act chain c r) as Hframe;
        destruct (Orchestrator.run_chain think_and_act chain (c, r))
          as [context' chain_result]
    end.
    cbn [fst] in Hframe. cbv zeta in Hframe.
    destruct Hframe as (H1 & H2 & H3 & H4 & H5 & H6 & H7).
    cbn [fst Orchestrator.active_workflows Orchestrator.conversation_states].
    split; [|split; [now rewrite lookup_insert_eq|
                     split; [now rewrite lookup_insert_eq|]]].
    + eexists. split; [apply lookup_insert_eq|].
      cbn in *. rewrite H1, H2, H3, H4, H6.
      repeat split; try reflexivity; [lia | now left].
    + intros other Hne. now rewrite !lookup_insert_ne.
  - cbn [fst Orchestrator.active_workflows Orchestrator.conversation_states].
    split; [|split; [now rewrite lookup_insert_eq|
                     split; [now rewrite lookup_insert_eq|]]].
    + eexists. split; [apply lookup_insert_eq|].
      cbn. repeat split; try reflexivity. now right.
    + intros other Hne. now rewrite !lookup_insert_ne.
Qed.

(** X7. What a follow-up does to the store.  Unless both the workflow and
    its conversation state are stored, [handle_followup_request] changes
    nothing.  When they are, the message is appended to the history and to
    the conversation state even if the agent then fails; a successful
    follow-up records one further step, of the orchestration engine, and a
    failed one none; in neither case is [current_step] advanced, so after a
    successful follow-up it falls behind the number of steps. *)
Theorem X7_followup_bookkeeping
    (think_and_act :
       string -> Orchestrator.WorkflowContext -> string
       -> Outcome Orchestrator.AgentResult)
    (self : Orchestrator.State) (followup : Orchestrator.FollowUpRequest) :
  let rid := Orchestrator.followup_request_id followup in
  let entry := ("user", Orchestrator.followup_text followup) in
  let run := Orchestrator.handle_followup_request think_and_act self followup in
  match Orchestrator.active_workflows self !! rid,
        Orchestrator.conversation_states self !! rid with
  | Some context, Some conversation =>
      exists context' response,
        Orchestrator.active_workflows (fst run) !! rid = Some context'
        /\ snd run = Returned response
        /\ (Orchestrator.Prompt.messages
              <$> Orchestrator.conversation_states (fst run) !! rid)
           = Some (Orchestrator.Prompt.messages conversation ++ [entry])
        /\ Orchestrator.conversation_history context'
           = Orchestrator.conversation_history context ++ [entry]
        /\ Orchestrator.current_step context' = Orchestrator.current_step context
        /\ (Orchestrator.agent_name response = "OrchestrationEngine"
            /\ Orchestrator.workflow_steps context'
               = Orchestrator.workflow_steps context
                   ++ [{| Orchestrator.step_agent_name := "OrchestrationEngine";
                          Orchestrator.step_action_type :=
                            Orchestrator.CUSTOMER_FOLLOWUP;
                          Orchestrator.step_status := "completed";
                          Orchestrator.step_confidence :=
                            Orchestrator.confidence response |}]
            \/ Orchestrator.agent_name response = "FollowupErrorHandler"
               /\ Orchestrator.confidence response == 4 # 10
               /\ Orchestrator.workflow_steps context'
                  = Orchestrator.workflow_steps context)
  | _, _ => fst run = self
  end.
Proof.
  intros rid entry run. subst rid entry run.
  unfold Orchestrator.handle_followup_request.
  destruct (Orchestrator.active_workflows self !! _) as [context|];
    [|reflexivity].
  destruct (Orchestrator.conversation_states self !! _) as [conversation|];
    [|reflexivity].
  destruct (think_and_act _ _ _) as [r|e];
    cbn [fst snd Orchestrator.active_workflows Orchestrator.conversation_states];
    rewrite !lookup_insert_eq; do 2 eexists;
    (split; [reflexivity|]); (split; [reflexivity|]); (split; [reflexivity|]);
    (split; [reflexivity|]); (split; [reflexivity|]).
  - left. split; reflexivity.
  - right. split; [reflexivity|]. split; reflexivity.
Qed.

(** X8. Follow-up routing is total.  For every message the intent found is
    a key of both the routing and the goal table, so neither subscript can
    raise, and the recommended agent is in the registry; it is never the
    error recovery agent.  A bundle keyword anywhere in the message wins
    over every other intent, and a message with no keyword at all goes to
    customer relations. *)
Theorem X8_followup_routing_is_total
    (context : Orchestrator.WorkflowContext) (followup_message : string) :
  let analysis := Orchestrator._analyze_followup_intent context followup_message in
  Dict.get (Orchestrator.detected_intent analysis) Orchestrator.agent_routing
  = Some (Orchestrator.recommended_agent analysis)
  /\ Dict.get (Orchestrator.detected_intent analysis) Orchestrator.goal_mapping
     = Some (Orchestrator.specific_goal analysis)
  /\ Orchestrator.registered (Orchestrator.recommended_agent analysis) = true
  /\ Orchestrator.recommended_agent analysis <> "error_recovery"
  /\ (Text.any_in ["add"; "also"; "too"; "bundle"; "include"; "plus"]
                  (Text.lower followup_message) = true ->
      Orchestrator.recommended_agent analysis = "bundle_optimizer")
  /\ (Dict.first_match
        (fun patterns => Text.any_in patterns (Text.lower followup_message))
        Orchestrator.intent_patterns = None ->
      Orchestrator.detected_intent analysis = "general_followup"
      /\ Orchestrator.recommended_agent analysis = "customer_relations").
Proof.
  intros analysis. subst analysis.
  unfold Orchestrator._analyze_followup_intent, Orchestrator.intent_patterns.
  cbn [Dict.first_match].
  destruct (Text.any_in ["add"; "also"; "too"; "bundle"; "include"; "plus"] _);
    [cbn; repeat split; try reflexivity; discriminate|].
  destruct (Text.any_in ["cost"; "price"; "how much"; "quote"; "expensive"] _);
    [cbn; repeat split; try reflexivity; discriminate|].
  destruct (Text.any_in ["reschedule"; "change time"; "different day";
                         "earlier"; "later"] _);
    [cbn; repeat split; try reflexivity; discriminate|].
  destruct (Text.any_in ["change"; "different"; "instead"; "modify"] _);
    [cbn; repeat split; try reflexivity; discriminate|].
  destruct (Text.any_in ["what"; "how"; "when"; "why"; "explain"] _);
    cbn; repeat split; try reflexivity; discriminate.
Qed.

(** X9. The planner names only agents the orchestrator knows: every agent of
    a planned chain is in the registry, has a goal of its own (not the
    catch-all one) and an action type of its own (not [REASON]).  A failure
    record in a planned run therefore never comes from the registry. *)
Theorem X9_planned_agents_are_registered
    (think_and_act :
       string -> Orchestrator.WorkflowContext -> string
       -> Outcome Orchestrator.AgentResult)
    (primary_result : Orchestrator.AgentResult)
    (entities : gmap string Orchestrator.Value) :
  Forall (fun name =>
            Orchestrator.registered name = true
            /\ Orchestrator._determine_agent_goal name entities
               <> "provide_specialized_analysis"
            /\ Orchestrator._map_agent_to_action name <> Orchestrator.REASON
            /\ (forall context,
                   Orchestrator.agent_outcome think_and_act name context
                   = think_and_act name context
                       (Orchestrator._determine_agent_goal
                          name (Orchestrator.extracted_entities context))))
         (Orchestrator._determine_agent_chain primary_result entities).
Proof.
  unfold Orchestrator._determine_agent_chain; simpl.
  destruct (Orchestrator.truthy (entities !! "bundle_request"));
    destruct (Orchestrator.truthy (entities !! "scheduling_request")
              || Orchestrator.among (entities !! "urgency") ["emergency"; "high"])%bool;
    destruct (Orchestrator.truthy (entities !! "pricing_request")); simpl;
    repeat constructor; try discriminate.
Qed.

Lemma synthesized_next_steps_length
    (chain_results : list (string * Orchestrator.AgentResult))
    (entities : gmap string Orchestrator.Value) :
  (1 <= length (Orchestrator._synthesize_next_steps chain_results entities) <= 3)%nat.
Proof.
  unfold Orchestrator._synthesize_next_steps.
  destruct (Dict.get "calendar_specialist" chain_results) as [c|];
    [destruct (Orchestrator.res_available_slots c)|];
    (destruct (Dict.get "pricing_analyst" chain_results) as [p|];
     [destruct (Orchestrator.res_total p)|]);
    (destruct (Dict.get "bundle_optimizer" chain_results) as [b|];
     [destruct (Qlt_le_dec 0 (Orchestrator.res_savings b))|]);
    cbn; lia.
Qed.

(** X10. No response leaves the customer without a next step: the response
    of [process_service_request] carries between one and three next steps
    on every path (synthesis, recovery, fallback), and every response a
    follow-up returns carries exactly three. *)
Theorem X10_responses_always_carry_next_steps
    (think_and_act :
       string -> Orchestrator.WorkflowContext -> string
       -> Outcome Orchestrator.AgentResult)
    (self : Orchestrator.State) :
  (forall rid request,
      (1 <= length (Orchestrator.next_steps
                      (snd (Orchestrator.process_service_request
                              think_and_act self rid request))) <= 3)%nat)
  /\ (forall followup response,
         snd (Orchestrator.handle_followup_request think_and_act self followup)
         = Returned response ->
         length (Orchestrator.next_steps response) = 3%nat).
Proof.
  split.
  - intros rid request. unfold Orchestrator.process_service_request.
    destruct (Orchestrator._execute_primary_analysis think_and_act _)
      as [[context primary_result]|e].
    + destruct (Orchestrator._execute_agent_chain think_and_act context primary_result)
        as [context' chain_result].
      cbn [snd Orchestrator._synthesize_response Orchestrator.next_steps].
      apply synthesized_next_steps_length.
    + cbn [snd]. unfold Orchestrator._handle_orchestration_error.
      destruct (think_and_act _ _ _); cbn; lia.
  - intros followup response. unfold Orchestrator.handle_followup_request.
    destruct (Orchestrator.active_workflows self !! _); [|discriminate].
    destruct (Orchestrator.conversation_states self !! _);
      [|intros [= <-]; reflexivity].
    destruct (think_and_act _ _ _) as [r|e]; intros [= <-]; [|reflexivity].
    cbn. unfold Orchestrator._determine_followup_next_steps.
    destruct (Orchestrator.res_needs_continuation r); reflexivity.
Qed.

(** ** Confidence stays a probability *)

Lemma sum_unit_bounds (l : list Q) :
  Forall (fun c => 0 <= c <= 1) l ->
  0 <= Builtins.sum l <= inject_Z (Z.of_nat (length l)).
Proof.
  induction 1 as [|x l Hx _ IH].
  - split; discriminate.
  - rewrite sum_cons. cbn [length]. rewrite Nat2Z.inj_succ.
    unfold Z.succ. rewrite inject_Z_plus.
    change (inject_Z 1) with 1. lra.
Qed.

Lemma overall_unit_bounds (x : Q) (l : list Q) :
  Forall (fun c => 0 <= c <= 1) (x :: l) ->
  0 <= Orchestrator.overall (x :: l) <= 1.
Proof.
  intros Hall. apply sum_unit_bounds in Hall.
  unfold Orchestrator.overall.
  assert (Hn : 0 < inject_Z (Z.of_nat (length (x :: l)))).
  { change 0 with (inject_Z 0). rewrite <- Zlt_Qlt. cbn [length]. lia. }
  split.
  - apply Qle_shift_div_l; [exact Hn|]. lra.
  - apply Qle_shift_div_r; [exact Hn|]. lra.
Qed.

Lemma calibrated_terms
    (think_and_act :
       string -> Orchestrator.WorkflowContext -> string
       -> Outcome Orchestrator.AgentResult)
    (Hcal : calibrated think_and_act) (chain : list string) :
  forall context,
    Forall (fun c => 0 <= c <= 1)
           (Orchestrator.confidence_terms
              (Orchestrator.chain_outcomes think_and_act chain context)).
Proof.
  unfold Orchestrator.confidence_terms.
  induction chain as [|name rest IH]; intros context;
    cbn [Orchestrator.chain_outcomes]; [constructor|].
  unfold omap in *; cbn [list_omap].
  unfold Orchestrator.agent_outcome at 1.
  destruct (Orchestrator.registered name).
  - destruct (think_and_act name context _) as [r|e] eqn:Hcall;
      cbn [Orchestrator.confidence_term].
    + destruct (Orchestrator.res_confidence r) as [c|] eqn:Hc; [|apply IH].
      constructor; [exact (Hcal _ _ _ _ _ Hcall Hc) | apply IH].
    + constructor; [split; discriminate | apply IH].
  - cbn [Orchestrator.confidence_term].
    constructor; [split; discriminate | apply IH].
Qed.

Lemma calibrated_default
    (think_and_act :
       string -> Orchestrator.WorkflowContext -> string
       -> Outcome Orchestrator.AgentResult)
    (Hcal : calibrated think_and_act) name context goal r (dflt : Q) :
  think_and_act name context goal = Returned r ->
  0 <= dflt <= 1 ->
  0 <= Orchestrator.confidence_or dflt r <= 1.
Proof.
  intros Hcall Hd. unfold Orchestrator.confidence_or.
  destruct (Orchestrator.res_confidence r) as [c|] eqn:Hc; [|exact Hd].
  exact (Hcal _ _ _ _ _ Hcall Hc).
Qed.

(** X11. With calibrated agents (every confidence they return lies in
    [0, 1]) every response has a confidence in [0, 1]: the one of
    [process_service_request] on each of its paths, and every response a
    follow-up returns. *)
Theorem X11_confidence_stays_in_unit_interval
    (think_and_act :
       string -> Orchestrator.WorkflowContext -> string
       -> Outcome Orchestrator.AgentResult)
    (Hcal : calibrated think_and_act) (self : Orchestrator.State) :
  (forall rid request,
      0 <= Orchestrator.confidence
             (snd (Orchestrator.process_service_request
                     think_and_act self rid request)) <= 1)
  /\ (forall followup response,
         snd (Orchestrator.handle_followup_request think_and_act self followup)
         = Returned response ->
         0 <= Orchestrator.confidence response <= 1).
Proof.
  split.
  - intros rid request. unfold Orchestrator.process_service_request.
    destruct (Orchestrator._execute_primary_analysis think_and_act _)
      as [[context primary_result]|e] eqn:Hprimary.
    + unfold Orchestrator._execute_primary_analysis in Hprimary.
      destruct (think_and_act _ _ _) as [r|] eqn:Hcall; [|discriminate].
      injection Hprimary as <- <-.
      pose proof (executed_chain_entries think_and_act
                    (Orchestrator.record_step
                       {| Orchestrator.step_agent_name := "primary_dispatcher";
                          Orchestrator.step_action_type := Orchestrator.REASON;
                          Orchestrator.step_status := "completed";
                          Orchestrator.step_confidence :=
                            Orchestrator.confidence_or (7 # 10) r |}
                       (Orchestrator._initialize_workflow_context rid request))
                    r) as Hentries.
      destruct (Orchestrator._execute_agent_chain think_and_act _ r)
        as [context' chain_result].
      cbn [snd] in Hentries. subst chain_result.
      cbn [snd Orchestrator._synthesize_response Orchestrator.confidence].
      unfold Orchestrator.confidences.
      rewrite confidence_terms_entries.
      apply overall_unit_bounds. constructor.
      * apply (calibrated_default think_and_act Hcal _ _ _ _ _ Hcall).
        split; discriminate.
      * now apply calibrated_terms.
    + cbn [snd]. unfold Orchestrator._handle_orchestration_error.
      destruct (think_and_act _ _ _); cbn; split; discriminate.
  - intros followup response. unfold Orchestrator.handle_followup_request.
    destruct (Orchestrator.active_workflows self !! _); [|discriminate].
    destruct (Orchestrator.conversation_states self !! _);
      [|intros [= <-]; cbn; split; discriminate].
    destruct (think_and_act _ _ _) as [r|e] eqn:Hcall; intros [= <-];
      [|cbn; split; discriminate].
    cbn [Orchestrator.confidence].
    apply (calibrated_default think_and_act Hcal _ _ _ _ _ Hcall).
    split; discriminate.
Qed.

Lemma calendar_down_calibrated : calibrated Sample.calendar_down.
Proof.
  intros name context goal r c. unfold Sample.calendar_down.
  destruct (String.eqb name "calendar_specialist"); [discriminate|].
  intros [= <-] [= <-]. split; discriminate.
Defined.

Lemma X11_confidence_stays_in_unit_interval_witness :
  0 <= Orchestrator.confidence
         (snd (Orchestrator.process_service_request
                 Sample.calendar_down Sample.empty_state "req-1"
                 Sample.soon_request)) <= 1.
Proof.
  apply (X11_confidence_stays_in_unit_interval
           Sample.calendar_down calendar_down_calibrated Sample.empty_state).
Defined.

(** ** The extractors *)

Lemma lower_ascii_idempotent (c : ascii) :
  Text.lower_ascii (Text.lower_ascii c) = Text.lower_ascii c.
Proof. destruct c as [[] [] [] [] [] [] [] []]; reflexivity. Qed.

Lemma lower_idempotent (s : string) : Text.lower (Text.lower s) = Text.lower s.
Proof.
  induction s as [|c s IH]; cbn [Text.lower]; [reflexivity|].
  now rewrite lower_ascii_idempotent, IH.
Qed.

(** X12. Extraction does not see the case of the letters: a message and its
    lower-case form yield the same entities from the orchestrator's
    extractor and the same analysis from the demo's. *)
Theorem X12_extraction_ignores_case (message : string) :
  Orchestrator._extract_entities_from_message (Text.lower message)
  = Orchestrator._extract_entities_from_message message
  /\ SimpleDemo.analyze_customer_request (Text.lower message)
     = SimpleDemo.analyze_customer_request message.
Proof.
  unfold Orchestrator._extract_entities_from_message,
    SimpleDemo.analyze_customer_request.
  now rewrite lower_idempotent.
Qed.

Lemma any_in_member (p : string) (patterns : list string) (s : string) :
  In p patterns -> Text.contains p s = true -> Text.any_in patterns s = true.
Proof.
  intros Hin Hp. unfold Text.any_in. apply existsb_exists. now exists p.
Qed.

(** X13. The word [broken] makes a request an emergency.  Whatever else a
    message says, if it contains [broken] (in any case) both extractors
    report the urgency [emergency], the planner puts the calendar
    specialist in the chain, and the price carries the surcharge of 75. *)
Theorem X13_broken_means_emergency (message : string)
    (Hbroken : Text.contains "broken" (Text.lower message) = true) :
  Orchestrator._extract_entities_from_message message !! "urgency"
  = Some (Orchestrator.VStr "emergency")
  /\ SimpleDemo.urgency (SimpleDemo.analyze_customer_request message)
     = "emergency"
  /\ (forall primary_result,
         In "calendar_specialist"
            (Orchestrator._determine_agent_chain primary_result
               (Orchestrator._extract_entities_from_message message)))
  /\ (forall l,
         urgency_surcharge
           (SimpleDemo.calculate_pricing
              (SimpleDemo.service_type
                 (SimpleDemo.analyze_customer_request message))
              l
              (SimpleDemo.urgency (SimpleDemo.analyze_customer_request message)))
         == 75).
Proof.
  assert (Horch : Text.any_in ["emergency"; "urgent"; "asap"; "immediately";
                               "broken"; "not working"; "dead"]
                              (Text.lower message) = true).
  { apply (any_in_member "broken"); [|exact Hbroken]. cbn; tauto. }
  assert (Hdemo : Text.any_in ["emergency"; "urgent"; "asap"; "broken"]
                              (Text.lower message) = true).
  { apply (any_in_member "broken"); [|exact Hbroken]. cbn; tauto. }
  assert (Hurgency :
            Orchestrator._extract_entities_from_message message !! "urgency"
            = Some (Orchestrator.VStr "emergency")).
  { unfold Orchestrator._extract_entities_from_message,
      Orchestrator.urgency_patterns.
    cbn [Dict.first_match]. rewrite Horch.
    unfold Orchestrator.set_flag, Orchestrator.set_found.
    repeat match goal with
           | |- context [if ?b then _ else _] => destruct b
           end;
      rewrite ?lookup_insert_ne by discriminate; apply lookup_insert_eq. }
  assert (Hdemo_urgency :
            SimpleDemo.urgency (SimpleDemo.analyze_customer_request message)
            = "emergency").
  { unfold SimpleDemo.analyze_customer_request; cbn [SimpleDemo.urgency].
    now rewrite Hdemo. }
  split; [exact Hurgency|]. split; [exact Hdemo_urgency|]. split.
  - intros primary_result.
    unfold Orchestrator._determine_agent_chain. rewrite Hurgency.
    cbn [Orchestrator.among existsb]. rewrite orb_true_r.
    destruct (Orchestrator.truthy (_ !! "bundle_request"));
      destruct (Orchestrator.truthy (_ !! "pricing_request")); cbn; tauto.
  - intros l. rewrite Hdemo_urgency. reflexivity.
Qed.

Lemma X13_broken_means_emergency_witness :
  Orchestrator._extract_entities_from_message Sample.scenario_text !! "urgency"
  = Some (Orchestrator.VStr "emergency")
  /\ SimpleDemo.urgency (SimpleDemo.analyze_customer_request Sample.scenario_text)
     = "emergency".
Proof.
  assert (Hbroken : Text.contains "broken" (Text.lower Sample.scenario_text) = true)
    by (vm_compute; reflexivity).
  destruct (X13_broken_means_emergency Sample.scenario_text Hbroken)
    as (Horchestrator & Hdemo & _).
  split; [exact Horchestrator | exact Hdemo].
Defined.

Lemma first_match_key {V} (p : V -> bool) (d : list (string * V)) (k : string) :
  Dict.first_match p d = Some k -> In k (Dict.keys d).
Proof.
  induction d as [|[k' v] d IH]; cbn; [discriminate|].
  destruct (p v); [intros [= ->]; now left | intros H; right; now apply IH].
Qed.

Lemma lookup_set_flag (k k' : string) (flag : bool)
    (entities : gmap string Orchestrator.Value) :
  Orchestrator.set_flag k flag entities !! k'
  = if String.eqb k k' then
      (if flag then Some (Orchestrator.VBool true) else entities !! k')
    else entities !! k'.
Proof.
  unfold Orchestrator.set_flag.
  destruct (String.eqb_spec k k') as [->|Hne]; destruct flag; try reflexivity.
  - apply lookup_insert_eq.
  - now apply lookup_insert_ne.
Qed.

Lemma lookup_set_found (k k' : string) (found : option string)
    (entities : gmap string Orchestrator.Value) :
  Orchestrator.set_found k found entities !! k'
  = if String.eqb k k' then
      match found with
      | Some name => Some (Orchestrator.VStr name)
      | None => entities !! k'
      end
    else entities !! k'.
Proof.
  unfold Orchestrator.set_found.
  destruct (String.eqb_spec k k') as [->|Hne]; destruct found; try reflexivity.
  - apply lookup_insert_eq.
  - now apply lookup_insert_ne.
Qed.

Lemma extracted_lookups (message : string) :
  let entities := Orchestrator._extract_entities_from_message message in
  let lowered := Text.lower message in
  entities !! "service_type" = Orchestrator.VStr <$> found_service message
  /\ entities !! "urgency" = Orchestrator.VStr <$> found_urgency message
  /\ entities !! "bundle_request"
     = flag_entry (Text.any_in Orchestrator.bundle_indicators lowered)
  /\ entities !! "pricing_request"
     = flag_entry (Text.any_in Orchestrator.pricing_indicators lowered)
  /\ entities !! "scheduling_request"
     = flag_entry (Text.any_in Orchestrator.schedule_indicators lowered).
Proof.
  intros entities lowered. subst entities lowered.
  unfold Orchestrator._extract_entities_from_message.
  fold (found_service message). fold (found_urgency message).
  repeat split;
    rewrite !lookup_set_flag, !lookup_set_found; cbn; unfold flag_entry;
    repeat match goal with
           | |- context [match ?x with _ => _ end] => destruct x
           end; reflexivity.
Qed.

(** X14. What the extractor's dictionary holds.  Its keys are among the five
    entity keys; [service_type] and [urgency] hold, when present, the name
    of the first pattern row that matches, hence one of the four services
    and one of the four urgency levels; a request flag is either [True] or
    absent, never [False]. *)
Theorem X14_extracted_entities_are_well_formed (message : string) :
  let entities := Orchestrator._extract_entities_from_message message in
  let lowered := Text.lower message in
  (entities !! "service_type" = Orchestrator.VStr <$> found_service message
   /\ entities !! "urgency" = Orchestrator.VStr <$> found_urgency message
   /\ entities !! "bundle_request"
      = flag_entry (Text.any_in Orchestrator.bundle_indicators lowered)
   /\ entities !! "pricing_request"
      = flag_entry (Text.any_in Orchestrator.pricing_indicators lowered)
   /\ entities !! "scheduling_request"
      = flag_entry (Text.any_in Orchestrator.schedule_indicators lowered))
  /\ (forall k, In k ["service_type"; "urgency"; "bundle_request";
                      "pricing_request"; "scheduling_request"]
                \/ entities !! k = None)
  /\ (forall name, found_service message = Some name ->
                   In name ["ac_repair"; "heating"; "plumbing"; "electrical"])
  /\ (forall name, found_urgency message = Some name ->
                   In name ["emergency"; "high"; "normal"; "low"]).
Proof.
  intros entities lowered. split; [apply extracted_lookups|].
  subst entities lowered. split; [|split].
  - intros k. unfold Orchestrator._extract_entities_from_message.
    rewrite !lookup_set_flag, !lookup_set_found.
    destruct (String.eqb_spec "scheduling_request" k) as [<-|_]; [cbn; tauto|].
    destruct (String.eqb_spec "pricing_request" k) as [<-|_]; [cbn; tauto|].
    destruct (String.eqb_spec "bundle_request" k) as [<-|_]; [cbn; tauto|].
    destruct (String.eqb_spec "urgency" k) as [<-|_]; [cbn; tauto|].
    destruct (String.eqb_spec "service_type" k) as [<-|_]; [cbn; tauto|].
    right. apply lookup_empty.
  - intros name H. apply first_match_key in H. exact H.
  - intros name H. apply first_match_key in H. exact H.
Qed.

(** X15. The chain planned for a message, read off its words.  Customer
    relations always runs; the bundle optimizer runs exactly when a bundle
    indicator occurs; the calendar specialist exactly when a scheduling
    indicator or a keyword of the emergency or high urgency rows occurs;
    the pricing analyst exactly when a pricing or a bundle indicator
    occurs. *)
Theorem X15_chain_follows_keywords
    (primary_result : Orchestrator.AgentResult) (message : string) :
  Orchestrator._determine_agent_chain primary_result
    (Orchestrator._extract_entities_from_message message)
  = keyword_chain message.
Proof.
  destruct (extracted_lookups message) as (_ & Hu & Hb & Hp & Hs).
  cbv zeta in *.
  unfold Orchestrator._determine_agent_chain, keyword_chain.
  rewrite Hu, Hb, Hp, Hs. clear Hu Hb Hp Hs.
  unfold found_urgency, Orchestrator.urgency_patterns, Dict.get_or, flag_entry.
  cbn [Dict.first_match Dict.get String.eqb Ascii.eqb Bool.eqb].
  repeat match goal with
         | |- context [Text.any_in ?l (Text.lower message)] =>
             destruct (Text.any_in l (Text.lower message))
         end;
    reflexivity.
Qed.

(** ** The demo's sessions *)

(** X16. What a follow-up keeps of a stored session.  The service type and
    the urgency of the first analysis are never replaced, whatever the
    follow-up says; the conversation grows by the follow-up message.  After
    a bundle follow-up the stored pricing is the price of the stored service
    type and urgency with the services now stored, and it is the pricing the
    reply carries; without a bundle keyword the stored pricing is left as it
    was. *)
Theorem X16_followup_keeps_service_and_urgency
    (active_sessions : gmap string SimpleDemo.Session)
    (request_id followup_message : string) (session : SimpleDemo.Session)
    (Hstored : active_sessions !! request_id = Some session) :
  let run :=
    SimpleDemo.handle_followup active_sessions request_id followup_message in
  exists session',
    fst run !! request_id = Some session'
    /\ SimpleDemo.service_type (SimpleDemo.analysis session')
       = SimpleDemo.service_type (SimpleDemo.analysis session)
    /\ SimpleDemo.urgency (SimpleDemo.analysis session')
       = SimpleDemo.urgency (SimpleDemo.analysis session)
    /\ SimpleDemo.conversation session'
       = SimpleDemo.conversation session ++ [followup_message]
    /\ (if SimpleDemo.bundle_request
             (SimpleDemo.analyze_customer_request followup_message)
        then
          let priced :=
            SimpleDemo.calculate_pricing
              (SimpleDemo.service_type (SimpleDemo.analysis session))
              (SimpleDemo.additional_services (SimpleDemo.analysis session'))
              (SimpleDemo.urgency (SimpleDemo.analysis session)) in
          SimpleDemo.pricing session' = Some priced
          /\ snd run
             = SimpleDemo.BundleUpdated
                 (SimpleDemo.additional_services (SimpleDemo.analysis session'))
                 priced
        else
          SimpleDemo.pricing session' = SimpleDemo.pricing session
          /\ snd run = SimpleDemo.Acknowledged).
Proof.
  intros run. subst run. unfold SimpleDemo.handle_followup. rewrite Hstored.
  destruct (SimpleDemo.bundle_request _); cbn [fst snd];
    rewrite lookup_insert_eq; eexists; split; try reflexivity;
    cbn; repeat split; reflexivity.
Qed.

Lemma X16_followup_keeps_service_and_urgency_witness :
  exists session',
    fst (SimpleDemo.handle_followup Sample.one_session "req_1"
           "It is an emergency, add heating and a filter")
    !! "req_1" = Some session'
    /\ SimpleDemo.service_type (SimpleDemo.analysis session') = "ac_repair"
    /\ SimpleDemo.urgency (SimpleDemo.analysis session') = "emergency".
Proof.
  destruct (X16_followup_keeps_service_and_urgency
              Sample.one_session "req_1"
              "It is an emergency, add heating and a filter"
              Sample.ac_session eq_refl)
    as (session' & Hlookup & Htype & Hurgency & _).
  exists session'. split; [exact Hlookup|]. split; [exact Htype | exact Hurgency].
Defined.

Lemma simple_pricing_perm (service_type urgency : string) (l l' : list string) :
  Permutation l l' ->
  pricing_eq (SimpleDemo.calculate_pricing service_type l urgency)
             (SimpleDemo.calculate_pricing service_type l' urgency).
Proof.
  intros Hperm.
  assert (Hsum :
            Builtins.sum
              (map (fun service =>
                      Dict.get_or service 0 SimpleDemoPricing.addon_prices) l)
            == Builtins.sum
                 (map (fun service =>
                         Dict.get_or service 0 SimpleDemoPricing.addon_prices) l')).
  { apply sum_perm. now apply Permutation_map. }
  assert (Hrate : match l with [] => 0 | _ :: _ => 15 # 100 end
                  == match l' with [] => 0 | _ :: _ => 15 # 100 end).
  { destruct l as [|a l].
    - apply Permutation_nil in Hperm as ->. reflexivity.
    - destruct l' as [|a' l']; [|reflexivity].
      symmetry in Hperm. now apply Permutation_nil in Hperm. }
  unfold pricing_eq, SimpleDemo.calculate_pricing;
    cbn -[Builtins.sum Dict.get_or].
  rewrite Hsum. repeat split; try reflexivity.
  all: rewrite Hrate; reflexivity.
Qed.

Lemma pricing_eq_refl (p : Pricing) : pricing_eq p p.
Proof. unfold pricing_eq. repeat split; reflexivity. Qed.

Lemma list_set_listing : set_listing SimpleDemo.list_set.
Proof. intros xs. apply list_set_spec. Qed.

Lemma rev_list_set_listing :
  set_listing (fun xs => rev (SimpleDemo.list_set xs)).
Proof.
  intros xs. destruct (list_set_spec xs) as [Hnd Hin]. split.
  - now rewrite <- Permutation_rev.
  - intros x. rewrite <- in_rev. apply Hin.
Qed.

(** Listing again what was listed, with elements it already holds. *)
Lemma listing_absorbs (first second : list string -> list string)
    (xs ys : list string) :
  set_listing first -> set_listing second ->
  Permutation (second (first (xs ++ ys) ++ ys)) (first (xs ++ ys)).
Proof.
  intros Hfirst Hsecond.
  destruct (Hfirst (xs ++ ys)) as [Hnd1 Hin1].
  destruct (Hsecond (first (xs ++ ys) ++ ys)) as [Hnd2 Hin2].
  apply NoDup_Permutation; [exact Hnd2 | exact Hnd1|].
  intros x. rewrite !list_elem_of_In, Hin2, in_app_iff, Hin1, in_app_iff.
  tauto.
Qed.

Lemma followup_store_in (listing : list string -> list string)
    (active_sessions : gmap string SimpleDemo.Session)
    (request_id followup_message : string) :
  fst (handle_followup_in listing active_sessions request_id followup_message)
  = match active_sessions !! request_id with
    | Some session =>
        <[request_id := followed_up_in listing session followup_message]>
          active_sessions
    | None => active_sessions
    end.
Proof.
  unfold handle_followup_in, followed_up_in.
  destruct (active_sessions !! request_id); [|reflexivity].
  destruct (SimpleDemo.bundle_request _); reflexivity.
Qed.

(** X17. A follow-up repeated changes nothing further, whatever order
    [list(set(...))] gives the services on either handling: after the same
    follow-up message is handled a second time the stored session has the
    same service type and urgency, the same additional services up to their
    order, and a pricing equal key by key to the one the first handling
    left; no other session is touched, and an unknown request changes
    nothing. *)
Theorem X17_repeated_followup_is_idempotent
    (first second : list string -> list string)
    (Hfirst : set_listing first) (Hsecond : set_listing second)
    (active_sessions : gmap string SimpleDemo.Session)
    (request_id followup_message : string) :
  let once :=
    fst (handle_followup_in first active_sessions request_id followup_message) in
  let twice :=
    fst (handle_followup_in second once request_id followup_message) in
  match active_sessions !! request_id with
  | None => twice = active_sessions
  | Some _ =>
      exists session' session'',
        once !! request_id = Some session'
        /\ twice !! request_id = Some session''
        /\ same_booking session'' session'
  end
  /\ (forall other, other <> request_id ->
                    twice !! other = active_sessions !! other)
  /\ SimpleDemo.handle_followup active_sessions request_id followup_message
     = handle_followup_in SimpleDemo.list_set
         active_sessions request_id followup_message.
Proof.
  intros once twice. subst once twice.
  rewrite !followup_store_in.
  split; [|split; [|reflexivity]].
  - destruct (active_sessions !! request_id) as [session|] eqn:Hstored.
    + rewrite !lookup_insert_eq.
      eexists; eexists; split; [reflexivity|]; split; [reflexivity|].
      unfold same_booking, followed_up_in.
      destruct (SimpleDemo.bundle_request
                  (SimpleDemo.analyze_customer_request followup_message));
        cbn [SimpleDemo.analysis SimpleDemo.pricing
             SimpleDemo.set_additional_services SimpleDemo.service_type
             SimpleDemo.urgency SimpleDemo.additional_services].
      * split; [reflexivity|]. split; [reflexivity|].
        split; [now apply listing_absorbs|].
        apply simple_pricing_perm. now apply listing_absorbs.
      * split; [reflexivity|]. split; [reflexivity|].
        split; [reflexivity|].
        destruct (SimpleDemo.pricing session); [apply pricing_eq_refl|exact I].
    + repeat (progress (rewrite ?Hstored; cbv beta iota)). reflexivity.
  - intros other Hne.
    destruct (active_sessions !! request_id) as [session|] eqn:Hstored.
    + rewrite lookup_insert_eq. now rewrite !lookup_insert_ne.
    + repeat (progress (rewrite ?Hstored; cbv beta iota)). reflexivity.
Qed.

Lemma X17_repeated_followup_is_idempotent_witness :
  set_listing SimpleDemo.list_set
  /\ set_listing (fun xs => rev (SimpleDemo.list_set xs))
  /\ exists session' session'',
       fst (handle_followup_in SimpleDemo.list_set Sample.one_session "req_1"
              "add a thermostat and a filter too")
       !! "req_1" = Some session'
       /\ fst (handle_followup_in (fun xs => rev (SimpleDemo.list_set xs))
                 (fst (handle_followup_in SimpleDemo.list_set
                         Sample.one_session "req_1"
                         "add a thermostat and a filter too"))
                 "req_1" "add a thermostat and a filter too")
          !! "req_1" = Some session''
       /\ same_booking session'' session'.
Proof.
  split; [exact list_set_listing|]. split; [exact rev_list_set_listing|].
  pose proof (X17_repeated_followup_is_idempotent
                SimpleDemo.list_set (fun xs => rev (SimpleDemo.list_set xs))
                list_set_listing rev_list_set_listing
                Sample.one_session "req_1"
                "add a thermostat and a filter too") as H.
  cbv zeta in H. destruct H as [H _].
  change (Sample.one_session !! "req_1") with (Some Sample.ac_session) in H.
  exact H.
Defined.

(** ** The demo's request flow *)

Lemma analysed_urgency (message : string) :
  In (SimpleDemo.urgency (SimpleDemo.analyze_customer_request message))
     ["emergency"; "high"; "low"; "normal"].
Proof.
  unfold SimpleDemo.analyze_customer_request; cbn [SimpleDemo.urgency].
  destruct (Text.any_in ["emergency"; "urgent"; "asap"; "broken"] _);
    [cbn; tauto|].
  destruct (Text.any_in ["this week"; "soon"; "today"] _); [cbn; tauto|].
  destruct (Text.any_in ["whenever"; "flexible"] _); cbn; tauto.
Qed.

Lemma calendar_never_fails (service_type urgency : string) :
  exists a,
    SimpleDemoFlow.check_calendar_availability service_type urgency = Done a.
Proof.
  unfold SimpleDemoFlow.check_calendar_availability.
  destruct (String.eqb urgency "emergency"); eexists; reflexivity.
Qed.

(** X18. The demo's request flow never raises.  For every message and
    every store [process_service_request] returns: the calendar is asked
    exactly when the analysis requires scheduling, the price is computed
    exactly when it requires pricing or scheduling and is then the price of
    the analysed service, services and urgency, and the session stored
    under the request id holds the analysis, that pricing and the message
    as its whole conversation; other sessions are untouched. *)
Theorem X18_demo_request_flow_never_raises
    (format_money : Q -> string) (format_date : nat -> string)
    (active_sessions : gmap string SimpleDemo.Session) (rid message : string) :
  let analysis := SimpleDemo.analyze_customer_request message in
  exists sessions processed,
    SimpleDemoFlow.process_service_request
      format_money format_date active_sessions rid message
    = Done (sessions, processed)
    /\ SimpleDemoFlow.request_id processed = rid
    /\ SimpleDemoFlow.analysis processed = analysis
    /\ (SimpleDemoFlow.availability processed <> None
        <-> SimpleDemo.requires_scheduling analysis = true)
    /\ SimpleDemoFlow.pricing processed
       = (if (SimpleDemo.requires_pricing analysis
              || SimpleDemo.requires_scheduling analysis)%bool
          then Some (SimpleDemo.calculate_pricing
                       (SimpleDemo.service_type analysis)
                       (SimpleDemo.additional_services analysis)
                       (SimpleDemo.urgency analysis))
          else None)
    /\ sessions
       = <[rid := {| SimpleDemo.analysis := analysis;
                     SimpleDemo.pricing := SimpleDemoFlow.pricing processed;
                     SimpleDemo.conversation := [message] |}]> active_sessions.
Proof.
  intros analysis. subst analysis.
  unfold SimpleDemoFlow.process_service_request.
  set (analysis := SimpleDemo.analyze_customer_request message).
  assert (Hresponse : forall availability pricing,
             exists text,
               SimpleDemoFlow.generate_response
                 format_money format_date analysis availability pricing
               = Done text).
  { intros availability pricing. unfold SimpleDemoFlow.generate_response.
    pose proof (analysed_urgency message) as Hu. fold analysis in Hu.
    destruct Hu as [<-|[<-|[<-|[<-|[]]]]]; cbn [Dict.get SimpleDemoFlow.urgency_texts];
      cbn -[Text.join Text.lower Str.title Str.replace_char Qlt_le_dec];
      eexists; reflexivity. }
  destruct (SimpleDemo.requires_scheduling analysis) eqn:Hsched.
  - destruct (calendar_never_fails (SimpleDemo.service_type analysis)
                                   (SimpleDemo.urgency analysis)) as [a ->].
    rewrite orb_true_r.
    destruct (Hresponse (Some a)
                (Some (SimpleDemo.calculate_pricing
                         (SimpleDemo.service_type analysis)
                         (SimpleDemo.additional_services analysis)
                         (SimpleDemo.urgency analysis)))) as [text ->].
    do 2 eexists. split; [reflexivity|]. cbn.
    repeat split; try reflexivity; try discriminate.
  - rewrite orb_false_r.
    destruct (SimpleDemo.requires_pricing analysis).
    + destruct (Hresponse None
                  (Some (SimpleDemo.calculate_pricing
                           (SimpleDemo.service_type analysis)
                           (SimpleDemo.additional_services analysis)
                           (SimpleDemo.urgency analysis)))) as [text ->].
      do 2 eexists. split; [reflexivity|]. cbn.
      repeat split; try reflexivity; try discriminate; try congruence.
    + destruct (Hresponse None None) as [text ->].
      do 2 eexists. split; [reflexivity|]. cbn.
      repeat split; try reflexivity; try discriminate; try congruence.
Qed.

(** X19. The mock calendar against the price.  The calendar never fails:
    it offers one slot for the urgency [emergency] and three otherwise, the
    earliest always a day from now.  The surcharge its slots show is the
    one the price carries, except for the urgency [high]: there the price
    adds 25 while every slot shows 0. *)
Theorem X19_calendar_surcharge_against_price
    (service_type urgency : string) (l : list string) :
  exists a,
    SimpleDemoFlow.check_calendar_availability service_type urgency = Done a
    /\ SimpleDemoFlow.earliest_available a = 1%nat
    /\ SimpleDemoFlow.emergency_available a = String.eqb urgency "emergency"
    /\ length (SimpleDemoFlow.available_slots a)
       = (if String.eqb urgency "emergency" then 1 else 3)%nat
    /\ map SimpleDemoFlow.datetime (SimpleDemoFlow.available_slots a)
       = seq 1 (length (SimpleDemoFlow.available_slots a))
    /\ Forall (fun slot =>
                 SimpleDemoFlow.surcharge slot
                 == if String.eqb urgency "high" then 0
                    else urgency_surcharge
                           (SimpleDemo.calculate_pricing service_type l urgency))
              (SimpleDemoFlow.available_slots a)
    /\ urgency_surcharge (SimpleDemo.calculate_pricing service_type l "high")
       == 25.
Proof.
  unfold SimpleDemoFlow.check_calendar_availability.
  cbn [urgency_surcharge SimpleDemo.calculate_pricing
       SimpleDemoPricing.calculate_pricing].
  unfold Dict.get_or, urgency_table; cbn [Dict.get].
  destruct (String.eqb_spec urgency "emergency") as [->|Hne].
  - eexists. split; [reflexivity|]. cbn.
    repeat split; try reflexivity. repeat constructor.
  - eexists. split; [reflexivity|]. cbn -[String.eqb].
    repeat split; try reflexivity.
    destruct (String.eqb urgency "high"); repeat constructor.
Qed.

Lemma processed_next_steps
    (format_money : Q -> string) (format_date : nat -> string)
    (active_sessions : gmap string SimpleDemo.Session) (rid message : string) :
  let analysis := SimpleDemo.analyze_customer_request message in
  exists sessions processed,
    SimpleDemoFlow.process_service_request
      format_money format_date active_sessions rid message
    = Done (sessions, processed)
    /\ SimpleDemoFlow.next_steps processed
       = SimpleDemoFlow.determine_next_steps analysis
           (if SimpleDemo.requires_scheduling analysis
            then match SimpleDemoFlow.check_calendar_availability
                         (SimpleDemo.service_type analysis)
                         (SimpleDemo.urgency analysis) with
                 | Done a => Some a
                 | _ => None
                 end
            else None)
           (if (SimpleDemo.requires_pricing analysis
                || SimpleDemo.requires_scheduling analysis)%bool
            then Some (SimpleDemo.calculate_pricing
                         (SimpleDemo.service_type analysis)
                         (SimpleDemo.additional_services analysis)
                         (SimpleDemo.urgency analysis))
            else None).
Proof.
  intros analysis. subst analysis.
  unfold SimpleDemoFlow.process_service_request.
  set (analysis := SimpleDemo.analyze_customer_request message).
  assert (Hresponse : forall availability pricing,
             exists text,
               SimpleDemoFlow.generate_response
                 format_money format_date analysis availability pricing
               = Done text).
  { intros availability pricing. unfold SimpleDemoFlow.generate_response.
    pose proof (analysed_urgency message) as Hu. fold analysis in Hu.
    destruct Hu as [<-|[<-|[<-|[<-|[]]]]]; cbn [Dict.get SimpleDemoFlow.urgency_texts];
      cbn -[Text.join Text.lower Str.title Str.replace_char Qlt_le_dec];
      eexists; reflexivity. }
  destruct (SimpleDemo.requires_scheduling analysis) eqn:Hsched.
  - destruct (calendar_never_fails (SimpleDemo.service_type analysis)
                                   (SimpleDemo.urgency analysis)) as [a ->].
    rewrite orb_true_r.
    destruct (Hresponse (Some a)
                (Some (SimpleDemo.calculate_pricing
                         (SimpleDemo.service_type analysis)
                         (SimpleDemo.additional_services analysis)
                         (SimpleDemo.urgency analysis)))) as [text ->].
    do 2 eexists. split; reflexivity.
  - rewrite orb_false_r.
    destruct (SimpleDemo.requires_pricing analysis).
    + destruct (Hresponse None
                  (Some (SimpleDemo.calculate_pricing
                           (SimpleDemo.service_type analysis)
                           (SimpleDemo.additional_services analysis)
                           (SimpleDemo.urgency analysis)))) as [text ->].
      do 2 eexists. split; reflexivity.
    + destruct (Hresponse None None) as [text ->].
      do 2 eexists. split; reflexivity.
Qed.

(** X20. The next steps the demo offers after a request always end with
    the booking confirmation; the step to review the pricing is offered
    whenever the step to select an appointment is, since every scheduled
    request is priced; and bundling is suggested exactly when the message
    named no additional service. *)
Theorem X20_demo_next_steps
    (format_money : Q -> string) (format_date : nat -> string)
    (active_sessions : gmap string SimpleDemo.Session) (rid message : string) :
  match SimpleDemoFlow.process_service_request
          format_money format_date active_sessions rid message with
  | Done (_, processed) =>
      let steps := SimpleDemoFlow.next_steps processed in
      last steps = Some "Confirm service booking"
      /\ (1 <= length steps <= 4)%nat
      /\ (In "Select preferred appointment time" steps ->
          In "Review pricing details" steps)
      /\ (In "Consider additional services for bundle savings" steps
          <-> SimpleDemo.additional_services
                (SimpleDemo.analyze_customer_request message) = [])
  | IndexError | KeyErrorOn _ => False
  end.
Proof.
  destruct (processed_next_steps format_money format_date active_sessions
              rid message)
    as (sessions & processed & -> & Hsteps).
  rewrite Hsteps. clear Hsteps.
  unfold SimpleDemoFlow.determine_next_steps.
  destruct (SimpleDemo.requires_scheduling _);
    [destruct (calendar_never_fails
                 (SimpleDemo.service_type
                    (SimpleDemo.analyze_customer_request message))
                 (SimpleDemo.urgency
                    (SimpleDemo.analyze_customer_request message))) as [a ->]|];
    destruct (SimpleDemo.requires_pricing _);
    destruct (SimpleDemo.additional_services _);
    cbn; (split; [reflexivity|]); (split; [lia|]);
    intuition (try discriminate; try congruence).
Qed.

(** ** The analysis and pricing tools *)

Lemma any_in_swap (a b : string) (l : list string) (s : string) :
  Text.any_in (a :: b :: l) s = Text.any_in (b :: a :: l) s.
Proof.
  unfold Text.any_in; cbn [existsb].
  destruct (Text.contains a s), (Text.contains b s); reflexivity.
Qed.

Lemma tool_urgency (message : string) :
  Dict.first_match (fun keywords => Text.any_in keywords (Text.lower message))
                   AnalysisTool.urgency_keywords
  = found_urgency message.
Proof.
  unfold found_urgency, AnalysisTool.urgency_keywords,
    Orchestrator.urgency_patterns.
  cbn [Dict.first_match].
  now rewrite (any_in_swap "soon" "this week").
Qed.

(** X21. The analysis tool and the orchestrator's extractor read a message
    alike: the tool's service type and urgency level are the extractor's
    [service_type] and [urgency] entries, with [ac_repair] and [normal]
    standing in when the extractor leaves the entry out; and every
    additional service the demo's analysis finds, the tool finds too. *)
Theorem X21_analysis_tool_agrees_with_extractor (message : string) :
  let analysis := AnalysisTool.analyze_request message in
  let entities := Orchestrator._extract_entities_from_message message in
  AnalysisTool.service_type analysis
  = Orchestrator.shown (entities !! "service_type") "ac_repair"
  /\ AnalysisTool.urgency_level analysis
     = Orchestrator.shown (entities !! "urgency") "normal"
  /\ incl (SimpleDemo.additional_services
             (SimpleDemo.analyze_customer_request message))
          (AnalysisTool.additional_services analysis).
Proof.
  intros analysis entities. subst analysis entities.
  destruct (extracted_lookups message) as (Hservice & Hurgency & _).
  cbv zeta in *. rewrite Hservice, Hurgency.
  unfold AnalysisTool.analyze_request.
  cbn [AnalysisTool.service_type AnalysisTool.urgency_level
       AnalysisTool.additional_services].
  rewrite tool_urgency.
  change (Dict.first_match
            (fun keywords => Text.any_in keywords (Text.lower message))
            AnalysisTool.service_keywords) with (found_service message).
  split; [now destruct (found_service message)|].
  split; [now destruct (found_urgency message)|].
  unfold SimpleDemo.analyze_customer_request, AnalysisTool.addon_keywords.
  cbn [SimpleDemo.additional_services List.filter].
  unfold Text.any_in; cbn [existsb].
  destruct (Text.contains "thermostat" (Text.lower message));
    destruct (Text.contains "filter" (Text.lower message));
    cbn [orb app];
    repeat match goal with
           | |- context [if ?b then _ else _] => destruct b
           end;
    cbn; intros x Hx; cbn in *; tauto.
Qed.

Lemma tool_services_known (message : string) :
  let services :=
    AnalysisTool.additional_services (AnalysisTool.analyze_request message) in
  NoDup services
  /\ Forall (fun s => In s ["thermostat_install"; "filter_replacement";
                            "duct_cleaning"; "maintenance_plan"]) services.
Proof.
  unfold AnalysisTool.analyze_request, AnalysisTool.addon_keywords.
  cbn [AnalysisTool.additional_services List.filter].
  repeat match goal with
         | |- context [if Text.any_in ?l ?s then _ else _] =>
             destruct (Text.any_in l s)
         end;
    cbn [map fst]; split;
    try (apply (bool_decide_unpack _); vm_compute; exact I);
    repeat constructor; cbn; tauto.
Qed.

Lemma demo_services_known (message : string) :
  let services :=
    SimpleDemo.additional_services (SimpleDemo.analyze_customer_request message) in
  NoDup services
  /\ Forall (fun s => In s ["thermostat_install"; "filter_replacement"]) services.
Proof.
  unfold SimpleDemo.analyze_customer_request.
  cbn [SimpleDemo.additional_services].
  destruct (Text.contains "thermostat" _); destruct (Text.contains "filter" _);
    cbn [app]; split;
    try (apply (bool_decide_unpack _); vm_compute; exact I);
    repeat constructor; cbn; tauto.
Qed.

(** X22. Whatever an extractor reports as an additional service has a
    price: every service the analysis tool finds is listed with a positive
    price in the pricing service's table, every service the demo's analysis
    finds in the demo's table, and neither extractor reports a service
    twice. *)
Theorem X22_extracted_services_are_priced (message : string) :
  let tool_services :=
    AnalysisTool.additional_services (AnalysisTool.analyze_request message) in
  let demo_services :=
    SimpleDemo.additional_services (SimpleDemo.analyze_customer_request message) in
  NoDup tool_services
  /\ Forall (fun s => exists price,
                 Dict.get s PricingService.addon_prices = Some price
                 /\ 0 < price) tool_services
  /\ NoDup demo_services
  /\ Forall (fun s => exists price,
                 Dict.get s SimpleDemoPricing.addon_prices = Some price
                 /\ 0 < price) demo_services.
Proof.
  intros tool_services demo_services.
  destruct (tool_services_known message) as [Hnd1 Hin1].
  destruct (demo_services_known message) as [Hnd2 Hin2].
  split; [exact Hnd1|]. split; [|split; [exact Hnd2|]].
  - eapply Forall_impl; [exact Hin1|]. cbn.
    intros s [<-|[<-|[<-|[<-|[]]]]]; eexists; split; reflexivity.
  - eapply Forall_impl; [exact Hin2|]. cbn.
    intros s [<-|[<-|[]]]; eexists; split; reflexivity.
Qed.

Lemma split_without_separator (sep : ascii) (p : string) :
  Str.has_char sep p = false -> Str.split sep p = [p].
Proof.
  induction p as [|c p IH]; cbn [Str.has_char Str.split]; [reflexivity|].
  intros H. apply orb_false_iff in H as [Hc Hp].
  rewrite Hc, (IH Hp). reflexivity.
Qed.

Lemma split_before_separator (sep : ascii) (p rest : string) :
  Str.has_char sep p = false ->
  Str.split sep (p ++ String sep rest) = p :: Str.split sep rest.
Proof.
  induction p as [|c p IH]; simpl.
  - intros _. now rewrite Ascii.eqb_refl.
  - intros H. apply orb_false_iff in H as [Hc Hp].
    rewrite Hc, (IH Hp). reflexivity.
Qed.

Lemma split_join (l : list string) :
  l <> [] ->
  Forall (fun s => Str.has_char "," s = false) l ->
  Str.split "," (Text.join "," l) = l.
Proof.
  intros Hne Hall. induction Hall as [|p l Hp Hall IH]; [contradiction|].
  destruct l as [|q r].
  - cbn [Text.join]. now apply split_without_separator.
  - change (Text.join "," (p :: q :: r))
      with (p ++ String "," (Text.join "," (q :: r)))%string.
    rewrite (split_before_separator _ _ _ Hp), IH; [reflexivity | discriminate].
Qed.

Lemma nonempty_join (p : string) (l : list string) :
  Str.nonempty p = true -> Str.nonempty (Text.join "," (p :: l)) = true.
Proof.
  destruct p as [|c p]; [discriminate|]. intros _.
  destruct l; reflexivity.
Qed.

Lemma additional_list_join (l : list string) :
  Forall PricingTool.clean l ->
  PricingTool.additional_list (Text.join "," l) = l.
Proof.
  intros Hclean. unfold PricingTool.additional_list.
  destruct l as [|p l]; [reflexivity|].
  rewrite nonempty_join
    by (apply Forall_cons in Hclean as [(Hp & _) _]; exact Hp).
  rewrite split_join;
    [|discriminate
     |eapply Forall_impl; [exact Hclean|]; now intros s (_ & Hs & _)].
  induction Hclean as [|s rest (Hne & Hcomma & Hstrip & _) _ IH]; [reflexivity|].
  cbn [List.filter map]. rewrite Hstrip, Hne. cbn [map]. rewrite Hstrip.
  f_equal. exact IH.
Qed.

(** X23. The pricing tool reads back what was joined for it.  For service
    names that are clean (ASCII, not empty, without comma, without blanks
    around them), the tool's comma-separated argument built by [",".join] is
    parsed back into the same list, the empty list included, so the tool
    prices exactly the listed services. *)
Theorem X23_pricing_tool_reads_back_joined_services
    (service_type urgency : string) (l : list string)
    (Hclean : Forall PricingTool.clean l) :
  PricingTool.additional_list (Text.join "," l) = l
  /\ PricingTool.calculate_price service_type (Text.join "," l) urgency
     = PricingService.calculate_pricing service_type (Some l) urgency.
Proof.
  unfold PricingTool.calculate_price.
  rewrite (additional_list_join l Hclean). split; reflexivity.
Qed.

Lemma X23_pricing_tool_reads_back_joined_services_witness :
  PricingTool.additional_list
    (Text.join "," ["thermostat_install"; "duct_cleaning"])
  = ["thermostat_install"; "duct_cleaning"]
  /\ PricingTool.calculate_price
       "heating" (Text.join "," ["thermostat_install"; "duct_cleaning"]) "high"
     = PricingService.calculate_pricing
         "heating" (Some ["thermostat_install"; "duct_cleaning"]) "high".
Proof.
  apply (X23_pricing_tool_reads_back_joined_services "heating" "high"
           ["thermostat_install"; "duct_cleaning"]).
  repeat constructor.
Defined.

(** X24. From the analysis tool to the pricing tool nothing is lost: the
    services the analysis tool reports for a message, joined with commas as
    the pricing tool's argument, are priced as the pricing service prices
    that very list; with no service reported the argument is empty and the
    price is that of the bare service. *)
Theorem X24_analysed_services_reach_the_price
    (service_type urgency message : string) :
  let services :=
    AnalysisTool.additional_services (AnalysisTool.analyze_request message) in
  PricingTool.calculate_price service_type (Text.join "," services) urgency
  = PricingService.calculate_pricing service_type (Some services) urgency
  /\ (services = [] ->
      pricing_eq
        (PricingTool.calculate_price service_type (Text.join "," services) urgency)
        (PricingService.calculate_pricing service_type None urgency)).
Proof.
  intros services. subst services.
  destruct (tool_services_known message) as [_ Hknown]. cbv zeta in Hknown.
  assert (Hclean : Forall PricingTool.clean
                     (AnalysisTool.additional_services
                        (AnalysisTool.analyze_request message))).
  { eapply Forall_impl; [exact Hknown|]. cbn.
    intros s [<-|[<-|[<-|[<-|[]]]]]; repeat split; vm_compute; reflexivity. }
  unfold PricingTool.calculate_price.
  rewrite (additional_list_join _ Hclean). split; [reflexivity|].
  intros ->. unfold pricing_eq. cbn. repeat split; reflexivity.
Qed.

(** X25. The two mock calendars offer the same slots.  For every urgency
    the calendar service of the LangChain system and the demo's calendar
    give slots on the same days, with the same technicians and surcharges,
    and agree on the emergency flag; the service's earliest slot is never
    missing and always a day from now. *)
Theorem X25_calendars_agree
    (service_type urgency : string) (location : option string) :
  let offered :=
    CalendarService.check_availability service_type urgency location in
  CalendarService.earliest_available offered = Some 1%nat
  /\ exists demo,
       SimpleDemoFlow.check_calendar_availability service_type urgency
       = Done demo
       /\ CalendarService.earliest_available offered
          = Some (SimpleDemoFlow.earliest_available demo)
       /\ CalendarService.emergency_available offered
          = SimpleDemoFlow.emergency_available demo
       /\ map (fun slot => (CalendarService.datetime slot,
                            CalendarService.technician slot,
                            CalendarService.surcharge slot))
              (CalendarService.available_slots offered)
          = map (fun slot => (SimpleDemoFlow.datetime slot,
                              SimpleDemoFlow.technician slot,
                              SimpleDemoFlow.surcharge slot))
                (SimpleDemoFlow.available_slots demo).
Proof.
  unfold CalendarService.check_availability,
    SimpleDemoFlow.check_calendar_availability.
  destruct (String.eqb urgency "emergency"); cbn;
    (split; [reflexivity|]); eexists; (split; [reflexivity|]);
    cbn; repeat split; reflexivity.
Qed.

(** X26. The response names every planned agent.  When the primary
    analysis returns, the actions of the response of
    [process_service_request] are the primary analysis followed by one
    processing entry per agent of the planned chain, in the chain's order,
    whether the agent succeeded or failed, and the summary of the workflow
    lists the same agents. *)
Theorem X26_response_names_every_planned_agent
    (think_and_act :
       string -> Orchestrator.WorkflowContext -> string
       -> Outcome Orchestrator.AgentResult)
    (self : Orchestrator.State) (rid : string)
    (request : Orchestrator.ServiceRequest) :
  match Orchestrator._execute_primary_analysis think_and_act
          (Orchestrator._initialize_workflow_context rid request) with
  | Returned (context, primary_result) =>
      let chain :=
        Orchestrator._determine_agent_chain primary_result
          (Orchestrator._extract_entities_from_message
             (Orchestrator.message request)) in
      let response :=
        snd (Orchestrator.process_service_request think_and_act self rid request) in
      Orchestrator.actions_taken response
      = "primary_analysis"
          :: map (fun name => (name ++ "_processing")%string) chain
      /\ Orchestrator.agent_name response = "OrchestrationEngine"
      /\ exists primary specialized steps entities,
           Orchestrator.result response
           = Orchestrator.CombinedResult primary specialized steps chain entities
           /\ Dict.keys specialized = chain
  | Raised _ =>
      Orchestrator.agent_name
        (snd (Orchestrator.process_service_request think_and_act self rid request))
      <> "OrchestrationEngine"
  end.
Proof.
  unfold Orchestrator.process_service_request.
  destruct (Orchestrator._execute_primary_analysis think_and_act _)
    as [[context primary_result]|e] eqn:Hprimary.
  - assert (Hentities :
              Orchestrator.extracted_entities context
              = Orchestrator._extract_entities_from_message
                  (Orchestrator.message request)).
    { unfold Orchestrator._execute_primary_analysis in Hprimary.
      destruct (think_and_act _ _ _); [|discriminate].
      injection Hprimary as <- <-. reflexivity. }
    pose proof (executed_chain_entries think_and_act context primary_result)
      as Hentries.
    destruct (Orchestrator._execute_agent_chain think_and_act context primary_result)
      as [context' chain_result].
    cbn [snd] in Hentries.
    assert (Hkeys : Dict.keys chain_result
                    = Orchestrator._determine_agent_chain primary_result
                        (Orchestrator._extract_entities_from_message
                           (Orchestrator.message request))).
    { rewrite Hentries, chain_entries_keys, chain_outcomes_names.
      now rewrite Hentities. }
    cbn [snd Orchestrator._synthesize_response Orchestrator.actions_taken
         Orchestrator.agent_name Orchestrator.result].
    rewrite Hkeys. split; [reflexivity|]. split; [reflexivity|].
    do 4 eexists. split; [reflexivity | exact Hkeys].
  - cbn [snd]. unfold Orchestrator._handle_orchestration_error.
    destruct (think_and_act _ _ _); cbn; discriminate.
Qed.
